(** * streamlit_app.py: a shallow embedding of the data-fetch layer

    The application is one Python script that Streamlit re-runs on every
    user interaction.  This development embeds the parts of it that carry
    behaviour: the poster resolver, the TMDB accessors, the wake-up
    routine, search, the chat turn, the recommendation grid and the dialog
    logic at the end of the script.  Markup and styling are left out.

    Python values are the JSON values the script receives, exceptions are
    an explicit result, and the session state, the network and what the
    user sees are threaded through a state-and-error monad. *)

From Stdlib Require Import ZArith QArith Qround Qpower String List Lia.
From Stdlib Require Import Floats.SpecFloat.
From stdpp Require Import gmap strings list.

Set Warnings "-register-all".
Local Open Scope Z_scope.

(** ** Python values *)

(** What [r.json()] produces: [None], [bool], [int], [float], [str],
    [list] and [dict] with string keys.  A float is an IEEE 754 binary64
    number in the representation of the Standard Library's [SpecFloat]. *)
Inductive json :=
| JNull
| JBool (b : bool)
| JInt (z : Z)
| JFloat (f : spec_float)
| JStr (s : string)
| JArr (l : list json)
| JObj (o : gmap string json).

(** Truth value of an object in a condition ([if x:], [x and y]). *)
Definition py_truthy (v : json) : bool :=
  match v with
  | JNull => false
  | JBool b => b
  | JInt z => negb (z =? 0)
  | JFloat (S754_zero _) => false
  | JFloat _ => true
  | JStr EmptyString => false
  | JStr _ => true
  | JArr [] => false
  | JArr _ => true
  | JObj o => negb (Nat.eqb (size o) 0)
  end.

(** ** Exceptions *)

Inductive exn :=
| RequestException          (* timeout, connection error, ... *)
| JSONDecodeError           (* raised by [r.json()] on an undecodable body *)
| KeyError
| TypeError
| AttributeError
| IndexError
| ValueError
| OverflowError
| NameError (name : string).

(** The classes named in the script's [except] clauses. *)
Inductive exn_class :=
| CRequestException | CKeyError | CTypeError | CIndexError | CValueError
| CException.

(** [isinstance e c].  [requests.exceptions.JSONDecodeError] derives from
    both [RequestException] and [ValueError]. *)
Definition isinstance (e : exn) (c : exn_class) : bool :=
  match c, e with
  | CException, _ => true
  | CRequestException, (RequestException | JSONDecodeError) => true
  | CValueError, (ValueError | JSONDecodeError) => true
  | CKeyError, KeyError => true
  | CTypeError, TypeError => true
  | CIndexError, IndexError => true
  | _, _ => false
  end.

Inductive outcome (A : Type) :=
| Returned (a : A)
| Raised (e : exn).
Arguments Returned {A} a.
Arguments Raised {A} e.

(** ** The session, the network and the screen *)

(** One entry of the chat transcript: [{"role": ..., "content": ...}]. *)
Record message := Message { role : string; content : json }.

(** The endpoints the script calls, with the arguments it puts in the URL,
    the query string or the body. *)
Inductive endpoint :=
| BackendHealth
| BackendSearch (q : string) (limit : Z)
| BackendRecommendEnriched (movie_id : json) (n : Z)
| BackendChat (messages : list message)
| TmdbCredits (movie_id : json)
| TmdbWatchProviders (movie_id : json).

Record request := Request { req_endpoint : endpoint; req_timeout : Z }.

(** A response as the script reads it: [r.ok] and the body that
    [r.json()] decodes ([None] when it is not JSON). *)
Record response := Response { ok : bool; body : option json }.

(** What a call of [requests.get] or [requests.post] does: raise a
    [RequestException] or hand back a response. *)
Inductive net_result :=
| NetRaise
| NetResp (r : response).

(** What the user sees and what goes over the wire, in order. *)
Inductive event :=
| EvRequest (r : request)
| EvSleep (seconds : Z)
| EvError (msg : string)
| EvErrorExn (prefix : string) (e : exn)   (* st.error(f"<prefix>{e}") *)
| EvToast (msg : string)
| EvInfo (msg : string)
| EvMarkdown (text : json)
| EvSubheader (title : json)                (* "Because you liked '<title>'" *)
| EvCard (poster : string) (title : json) (match_percent : Z).

(** [st.session_state]: a key that was never assigned is [None]. *)
Record session_state := Session {
  backend_ready : option bool;
  chat_history : option (list message);
  recs : option json;
  source_movie : option json;
  selected_rec : option json;
  show_dialog : option bool
}.

(** The world a script run acts on.  [net i rq] is the answer to request
    [rq] when it is the [i]-th request of the process. *)
Record world := World {
  session : session_state;
  net : nat -> request -> net_result;
  calls : nat;
  trace : list event
}.

Definition M (A : Type) : Type := world -> outcome A * world.

#[global] Instance M_ret : MRet M := fun A a w => (Returned a, w).
#[global] Instance M_bind : MBind M := fun A B f m w =>
  match m w with
  | (Returned a, w') => f a w'
  | (Raised e, w') => (Raised e, w')
  end.

Definition raise {A} (e : exn) : M A := fun w => (Raised e, w).

(** [try: body  except (c1, c2, ...): handler]. *)
Definition try_except {A} (body : M A) (classes : list exn_class)
    (handler : exn -> M A) : M A := fun w =>
  match body w with
  | (Returned a, w') => (Returned a, w')
  | (Raised e, w') =>
      if existsb (isinstance e) classes then handler e w' else (Raised e, w')
  end.

Definition lift {A} (o : outcome A) : M A := fun w => (o, w).

Definition emit (ev : event) : M unit := fun w =>
  (Returned tt, World (session w) (net w) (calls w) (trace w ++ [ev])).

Definition get_session : M session_state := fun w => (Returned (session w), w).

Definition put_session (s : session_state) : M unit := fun w =>
  (Returned tt, World s (net w) (calls w) (trace w)).

(** [requests.get(url, timeout=t)] and [requests.post(url, json=..., timeout=t)]. *)
Definition requests_call (rq : request) : M response := fun w =>
  let w' := World (session w) (net w) (S (calls w)) (trace w ++ [EvRequest rq]) in
  match net w (calls w) rq with
  | NetRaise => (Raised RequestException, w')
  | NetResp r => (Returned r, w')
  end.

(** [r.json()]. *)
Definition resp_json (r : response) : M json :=
  match body r with
  | Some j => mret j
  | None => raise JSONDecodeError
  end.

Definition time_sleep (seconds : Z) : M unit := emit (EvSleep seconds).
Definition st_error (msg : string) : M unit := emit (EvError msg).
Definition st_toast (msg : string) : M unit := emit (EvToast msg).

(** ** Operations on Python values *)

(** [d.get(k, dflt)]: only a [dict] has the method. *)
Definition py_get (d : json) (k : string) (dflt : json) : outcome json :=
  match d with
  | JObj o => Returned (default dflt (o !! k))
  | _ => Raised AttributeError
  end.

(** [d[k]] with a string key. *)
Definition py_getitem (d : json) (k : string) : outcome json :=
  match d with
  | JObj o => match o !! k with Some v => Returned v | None => Raised KeyError end
  | _ => Raised TypeError
  end.

(** ** Poster URL resolution (lines 119-124) *)

Definition image_base : string := "https://image.tmdb.org/t/p/w500".
Definition placeholder : string := "https://via.placeholder.com/500x750?text=No+Poster".

(** [s.startswith(p)] *)
Definition startswith (p s : string) : bool := String.prefix p s.

(** <<
    def fetch_poster(poster_path):
        if poster_path and not poster_path.startswith("http"):
            return f"https://image.tmdb.org/t/p/w500{poster_path}"
        return "https://via.placeholder.com/500x750?text=No+Poster"
    >>
    The argument is whatever [x.get("poster_path")] gave.  A true value
    that is not a string has no [startswith]. *)
Definition fetch_poster (poster_path : json) : outcome string :=
  if py_truthy poster_path then
    match poster_path with
    | JStr s =>
        if negb (startswith "http" s) then Returned (image_base +:+ s)
        else Returned placeholder
    | _ => Raised AttributeError
    end
  else Returned placeholder.

(** A poster path as the metadata provider sends it: absent or a string. *)
Definition path_value (p : option string) : json :=
  match p with
  | None => JNull
  | Some s => JStr s
  end.

(** ** Lists, slices and strings *)

(** [l[start:]] on a list, with Python's handling of a negative or too
    large start. *)
Definition py_slice_from {A} (start : Z) (l : list A) : list A :=
  let len := Z.of_nat (length l) in
  let i := if start <? 0 then Z.max (start + len) 0 else Z.min start len in
  drop (Z.to_nat i) l.

(** [v[:n]] for [n >= 0].  A list and a string can be sliced; a [dict]
    rejects the slice as a key (a [TypeError]; a [KeyError] from Python
    3.12 on), the other values are not subscriptable. *)
Definition py_slice_to (n : nat) (v : json) : outcome json :=
  match v with
  | JArr l => Returned (JArr (take n l))
  | JStr s => Returned (JStr (String.substring 0 n s))
  | _ => Raised TypeError
  end.

(** The elements a [for] loop or a comprehension draws from a value. *)
Definition py_iter (v : json) : outcome (list json) :=
  match v with
  | JArr l => Returned l
  | JStr s => Returned ((fun a => JStr (String a EmptyString)) <$> list_ascii_of_string s)
  | JObj o => Returned ((fun kv => JStr kv.1) <$> map_to_list o)
  | _ => Raised TypeError
  end.

(** [[f(c) for c in l]]: the first exception ends the comprehension. *)
Fixpoint comprehension {A B} (f : A -> outcome B) (l : list A) : outcome (list B) :=
  match l with
  | [] => Returned []
  | c :: rest =>
      match f c with
      | Raised e => Raised e
      | Returned b =>
          match comprehension f rest with
          | Raised e => Raised e
          | Returned bs => Returned (b :: bs)
          end
      end
  end.

(** [sep.join(l)] for strings. *)
Fixpoint join (sep : string) (l : list string) : string :=
  match l with
  | [] => ""
  | [s] => s
  | s :: rest => s +:+ sep +:+ join sep rest
  end.

(** [sep.join(l)] on values: every element must be a [str]. *)
Definition py_join (sep : string) (l : list json) : outcome string :=
  match comprehension (fun v => match v with JStr s => Returned s | _ => Raised TypeError end) l with
  | Returned ss => Returned (join sep ss)
  | Raised e => Raised e
  end.

(** [v == "text"]. *)
Definition py_eq_str (v : json) (text : string) : bool :=
  match v with
  | JStr s => String.eqb s text
  | _ => false
  end.

(** ** Credits (lines 141-155) *)

(** The [dict] that [fetch_credits] returns. *)
Record credits := Credits { cast : string; director : json }.

(** [next((c["name"] for c in crew if c.get("job") == "Director"), "Unknown")]:
    the generator is consumed up to the first match only. *)
Fixpoint first_director (crew : list json) : outcome json :=
  match crew with
  | [] => Returned (JStr "Unknown")
  | c :: rest =>
      match py_get c "job" JNull with
      | Raised e => Raised e
      | Returned job =>
          if py_eq_str job "Director" then py_getitem c "name"
          else first_director rest
      end
  end.

(** <<
    def fetch_credits(movie_id):
        try:
            r = requests.get(".../movie/{movie_id}/credits", params=..., timeout=3)
            data = r.json()
            cast = [c["name"] for c in data.get("cast", [])[:3]]
            director = next((c["name"] for c in data.get("crew", [])
                             if c.get("job") == "Director"), "Unknown")
            return {"cast": ", ".join(cast), "director": director}
        except (requests.RequestException, KeyError, TypeError):
            return {"cast": "N/A", "director": "N/A"}
    >>
    The status of the response is not looked at.  The [st.cache_data]
    decorator is not modelled: this is the body that runs on a cache miss. *)
Definition fetch_credits (movie_id : json) : M credits :=
  try_except
    (r ← requests_call (Request (TmdbCredits movie_id) 3);
     data ← resp_json r;
     cast_field ← lift (py_get data "cast" (JArr []));
     first3 ← lift (py_slice_to 3 cast_field);
     cast_items ← lift (py_iter first3);
     cast ← lift (comprehension (fun c => py_getitem c "name") cast_items);
     crew_field ← lift (py_get data "crew" (JArr []));
     crew ← lift (py_iter crew_field);
     director ← lift (first_director crew);
     joined ← lift (py_join ", " cast);
     mret (Credits joined director))
    [CRequestException; CKeyError; CTypeError]
    (fun _ => mret (Credits "N/A" (JStr "N/A"))).

(** ** Watch providers (lines 158-177) *)

(** <<
    def fetch_watch_providers(movie_id):
        try:
            r = requests.get(".../movie/{movie_id}/watch/providers", params=..., timeout=3)
            data = r.json()
            results = data.get("results", {})
            providers = results.get("IN", results.get("US", {}))
            flatrate = providers.get("flatrate", [])
            return flatrate
        except (requests.RequestException, KeyError, TypeError):
            return []
    >> *)
Definition fetch_watch_providers (movie_id : json) : M json :=
  try_except
    (r ← requests_call (Request (TmdbWatchProviders movie_id) 3);
     data ← resp_json r;
     results ← lift (py_get data "results" (JObj ∅));
     us ← lift (py_get results "US" (JObj ∅));
     providers ← lift (py_get results "IN" us);
     flatrate ← lift (py_get providers "flatrate" (JArr []));
     mret flatrate)
    [CRequestException; CKeyError; CTypeError]
    (fun _ => mret (JArr [])).

(** ** Waking the backend (lines 181-210) *)

Definition health_probe (timeout : Z) : request := Request BackendHealth timeout.

(** The retry loop, [for _ in range(n)]:
    <<
            try:
                r = requests.get(f"{API_URL}/health", timeout=5)
                if r.ok:
                    st.toast("System Online!")
                    return True
            except requests.RequestException:
                time.sleep(2)
    >>
    [true] stands for the [return True] that leaves the function, [false]
    for a loop that ran to its end. *)
Fixpoint wake_up_loop (n : nat) : M bool :=
  match n with
  | O => mret false
  | S n' =>
      woke ← try_except
        (r ← requests_call (health_probe 5);
         if ok r then st_toast "System Online!";; mret true else mret false)
        [CRequestException]
        (fun _ => time_sleep 2;; mret false);
      if woke : bool then mret true else wake_up_loop n'
  end.

(** <<
    def wake_up_backend():
        try:
            r = requests.get(f"{API_URL}/health", timeout=2)
            if r.ok:
                return True
        except requests.RequestException:
            pass
        with st.spinner("Waking up the recommendation engine..."):
            for _ in range(30):
                ...
        return False
    >> *)
Definition wake_up_backend : M bool :=
  fast ← try_except
    (r ← requests_call (health_probe 2); mret (ok r))
    [CRequestException]
    (fun _ => mret false);
  if fast : bool then mret true else wake_up_loop 30.

Definition set_backend_ready (b : bool) : M unit :=
  s ← get_session;
  put_session (Session (Some b) (chat_history s) (recs s) (source_movie s)
                       (selected_rec s) (show_dialog s)).

(** <<
    if "backend_ready" not in st.session_state:
        st.session_state.backend_ready = wake_up_backend()
    >> *)
Definition initialize_connection : M unit :=
  s ← get_session;
  match backend_ready s with
  | None => b ← wake_up_backend; set_backend_ready b
  | Some _ => mret tt
  end.

(** [st.session_state.<key>]: reading a key that was never assigned
    raises [AttributeError]. *)
Definition session_attr {A} (key : session_state -> option A) : M A :=
  s ← get_session;
  match key s with
  | Some a => mret a
  | None => raise AttributeError
  end.

(** ** Search (lines 212-224) *)

Definition unreachable_msg : string :=
  "Backend is unreachable. Please refresh or check Render dashboard.".
Definition connection_lost_msg : string :=
  "Connection lost. Backend might be restarting.".

(** <<
    def search_movies(query):
        if not st.session_state.backend_ready:
            st.error("Backend is unreachable. ...")
            return []
        try:
            r = requests.get(f"{API_URL}/search", params={"q": query, "limit": 100}, timeout=10)
            if r.ok:
                return r.json()
        except requests.RequestException:
            st.error("Connection lost. Backend might be restarting.")
        return []
    >> *)
Definition search_movies (query : string) : M json :=
  ready ← session_attr backend_ready;
  if negb ready then st_error unreachable_msg;; mret (JArr [])
  else
    try_except
      (r ← requests_call (Request (BackendSearch query 100) 10);
       if ok r then resp_json r else mret (JArr []))
      [CRequestException]
      (fun _ => st_error connection_lost_msg;; mret (JArr [])).

(** ** The chat turn (lines 905-935) *)

Definition greeting : message :=
  Message "assistant" (JStr "Hello! I'm your AI movie expert. Ask me anything!").

Definition set_chat_history (h : list message) : M unit :=
  s ← get_session;
  put_session (Session (backend_ready s) (Some h) (recs s) (source_movie s)
                       (selected_rec s) (show_dialog s)).

(** [st.session_state.chat_history.append(m)] *)
Definition append_chat (m : message) : M unit :=
  h ← session_attr chat_history;
  set_chat_history (h ++ [m]).

(** <<
    recent_msgs = st.session_state.chat_history[-6:]
    clean_msgs = [{"role": m["role"], "content": m["content"]}
                  for m in recent_msgs if m["role"] != "system"]
    >> *)
Definition recent_msgs (history : list message) : list message :=
  py_slice_from (-6) history.

Definition clean_msgs (history : list message) : list message :=
  (fun m => Message (role m) (content m)) <$>
    filter (fun m => role m ≠ "system") (recent_msgs history).

(** <<
    if prompt := st.chat_input("Ask CineBot..."):
        st.session_state.chat_history.append({"role": "user", "content": prompt})
        with st.chat_message("user"):
            st.markdown(prompt)
        with st.chat_message("assistant"):
            with st.spinner("Thinking..."):
                try:
                    recent_msgs = ...
                    clean_msgs = ...
                    r = requests.post(f"{API_URL}/chat", json={"messages": clean_msgs}, timeout=60)
                    if r.ok:
                        response_text = r.json()["content"]
                        st.markdown(response_text)
                        st.session_state.chat_history.append(
                            {"role": "assistant", "content": response_text})
                    else:
                        st.error("AI Brain Offline.")
                except Exception as e:
                    st.error(f"Error: {e}")
    >> *)
Definition chat_turn (prompt : string) : M unit :=
  append_chat (Message "user" (JStr prompt));;
  emit (EvMarkdown (JStr prompt));;
  try_except
    (h ← session_attr chat_history;
     r ← requests_call (Request (BackendChat (clean_msgs h)) 60);
     if ok r then
       reply ← resp_json r;
       response_text ← lift (py_getitem reply "content");
       emit (EvMarkdown response_text);;
       append_chat (Message "assistant" response_text)
     else st_error "AI Brain Offline.")
    [CException]
    (fun e => emit (EvErrorExn "Error: " e)).

(** The chat page below its header: the transcript is created on the
    first visit, shown, and a submitted prompt (never the empty string)
    starts a turn. *)
Definition chat_page (prompt : option string) : M unit :=
  s ← get_session;
  match chat_history s with
  | None => set_chat_history [greeting]
  | Some _ => mret tt
  end;;
  h ← session_attr chat_history;
  mapM (fun m => emit (EvMarkdown (content m))) h;;
  match prompt with
  | Some (String a p) => chat_turn (String a p)
  | _ => mret tt
  end.

(** ** Numbers: [x * 100] and [int(...)] (lines 368 and 876) *)

(** binary64 *)
Definition prec : Z := 53.
Definition emax : Z := 1024.

Definition float_mul : spec_float -> spec_float -> spec_float := SFmul prec emax.

(** The conversion of an [int] operand in mixed arithmetic: rounded to
    nearest even, [OverflowError] when the integer is too large. *)
Definition float_of_int (k : Z) : outcome spec_float :=
  match binary_normalize prec emax k 0 false with
  | S754_infinity _ => Raised OverflowError
  | f => Returned f
  end.

(** [int(f)] for a float: truncation toward zero. *)
Definition float_trunc (f : spec_float) : outcome Z :=
  match f with
  | S754_zero _ => Returned 0
  | S754_infinity _ => Raised OverflowError
  | S754_nan => Raised ValueError
  | S754_finite s m e =>
      let a := Z.shiftl (Z.pos m) e in
      Returned (if s then - a else a)
  end.

Fixpoint string_repeat (s : string) (n : nat) : string :=
  match n with
  | O => ""
  | S n' => s +:+ string_repeat s n'
  end.

(** [v * k] for an [int] literal [k]: arithmetic on numbers, repetition
    on sequences. *)
Definition py_mul_int (v : json) (k : Z) : outcome json :=
  match v with
  | JInt z => Returned (JInt (z * k))
  | JBool b => Returned (JInt ((if b then 1 else 0) * k))
  | JFloat f =>
      match float_of_int k with
      | Returned fk => Returned (JFloat (float_mul f fk))
      | Raised e => Raised e
      end
  | JStr s => Returned (JStr (string_repeat s (Z.to_nat k)))
  | JArr l => Returned (JArr (mjoin (replicate (Z.to_nat k) l)))
  | JNull | JObj _ => Raised TypeError
  end.

(** The exact value of a finite float, for stating results. *)
Definition float_value (f : spec_float) : Q :=
  match f with
  | S754_finite s m e => inject_Z (if s then Z.neg m else Z.pos m) * (2 # 1) ^ e
  | _ => 0
  end%Q.

Definition float_zero : spec_float := S754_zero false.
Definition float_hundred : spec_float := S754_finite false (100 * 2 ^ 46) (-46).
Definition float_one : spec_float := S754_finite false (2 ^ 52) (-52).

(** [0 <= s <= 1] for a binary64 number. *)
Definition in_unit_interval (s : spec_float) : Prop :=
  valid_binary prec emax s = true /\
  SFleb float_zero s = true /\ SFleb s float_one = true.

Section PythonInt.

(** Python's parser of integer literals, [int(text)], is not described
    here: the definitions below take it as given. *)
Variable int_of_str : string -> outcome Z.

(** [int(v)] *)
Definition py_int (v : json) : outcome Z :=
  match v with
  | JInt z => Returned z
  | JBool b => Returned (if b then 1 else 0)
  | JFloat f => float_trunc f
  | JStr s => int_of_str s
  | JNull | JArr _ | JObj _ => Raised TypeError
  end.

(** [match_pct = int(similarity * 100)] in [display_movie_card], and
    [match = int(rec.get("similarity_score", 0) * 100)] in the grid. *)
Definition match_pct (similarity : json) : outcome Z :=
  match py_mul_int similarity 100 with
  | Returned p => py_int p
  | Raised e => Raised e
  end.

(** ** The recommendation grid and the dialog (lines 846-890, 938-941) *)

Definition set_selected_rec (v : json) : M unit :=
  s ← get_session;
  put_session (Session (backend_ready s) (chat_history s) (recs s) (source_movie s)
                       (Some v) (show_dialog s)).

Definition set_show_dialog (b : bool) : M unit :=
  s ← get_session;
  put_session (Session (backend_ready s) (chat_history s) (recs s) (source_movie s)
                       (selected_rec s) (Some b)).

Definition set_recs (v : json) : M unit :=
  s ← get_session;
  put_session (Session (backend_ready s) (chat_history s) (Some v) (source_movie s)
                       (selected_rec s) (show_dialog s)).

Definition set_source_movie (v : json) : M unit :=
  s ← get_session;
  put_session (Session (backend_ready s) (chat_history s) (recs s) (Some v)
                       (selected_rec s) (show_dialog s)).

(** The handler of the "Get Similar Recommendations" button, for the
    selected [movie]:
    <<
    st.session_state.selected_rec = None
    try:
        r = requests.get(f"{API_URL}/recommend/id/{movie['id']}/enriched",
                         params={"n": 10}, timeout=30)
        if r.ok:
            result = r.json()
            st.session_state.recs = result["recommendations"]
            st.session_state.source_movie = movie
        else:
            st.error("API Error")
    except Exception as e:
        st.error(f"Connection Error: {e}")
    >> *)
Definition get_similar_click (movie : json) : M unit :=
  set_selected_rec JNull;;
  try_except
    (movie_id ← lift (py_getitem movie "id");
     r ← requests_call (Request (BackendRecommendEnriched movie_id 10) 30);
     if ok r then
       result ← resp_json r;
       recommendations ← lift (py_getitem result "recommendations");
       set_recs recommendations;;
       set_source_movie movie
     else st_error "API Error")
    [CException]
    (fun e => emit (EvErrorExn "Connection Error: " e)).

(** The body of [for idx, rec in enumerate(recs)], from card [idx] on:
    <<
    poster = fetch_poster(rec.get("poster_path"))
    title = rec.get("title")
    match = int(rec.get("similarity_score", 0) * 100)
    st.markdown(...)
    if st.button("Details", key=f"rec_{idx}", ...):
        st.session_state.selected_rec = rec
        st.session_state.show_dialog = True
    >>
    [clicked] is the index of the Details button the user pressed, if any. *)
Fixpoint grid_cards (clicked : option nat) (idx : nat) (items : list json) : M unit :=
  match items with
  | [] => mret tt
  | rec :: rest =>
      poster_path ← lift (py_get rec "poster_path" JNull);
      poster ← lift (fetch_poster poster_path);
      title ← lift (py_get rec "title" JNull);
      score ← lift (py_get rec "similarity_score" (JInt 0));
      percent ← lift (match_pct score);
      emit (EvCard poster title percent);;
      (if bool_decide (clicked = Some idx)
       then set_selected_rec rec;; set_show_dialog true
       else mret tt);;
      grid_cards clicked (S idx) rest
  end.

(** <<
    if "recs" in st.session_state and st.session_state.recs:
        recs = st.session_state.recs
        source = st.session_state.get("source_movie", {})
        st.subheader(f"Because you liked '{source.get('title', '...')}'")
        cols = st.columns(5)
        for idx, rec in enumerate(recs):
            ...
    >> *)
Definition recommendations_grid (clicked : option nat) : M unit :=
  s ← get_session;
  match recs s with
  | Some rs =>
      if py_truthy rs then
        title ← lift (py_get (default (JObj ∅) (source_movie s)) "title" (JStr "..."));
        emit (EvSubheader title);;
        items ← lift (py_iter rs);
        grid_cards clicked 0 items
      else mret tt
  | None => mret tt
  end.

(** The names bound at module level by the script: its imports, its
    [def]s and the variables assigned outside any function. *)
Definition module_globals : list string :=
  [ "st"; "requests"; "time"; "os"; "clickable_images";
    "API_URL"; "TMDB_KEY";
    "fetch_trailer"; "fetch_poster"; "fetch_tmdb_details"; "fetch_credits";
    "fetch_watch_providers"; "wake_up_backend"; "search_movies";
    "get_recommendations"; "display_fullscreen_video"; "display_movie_card";
    "format_option"; "go_home"; "go_search"; "go_chat"; "fetch_trending_movies";
    "c1"; "c2"; "trending"; "hero"; "trailer_key"; "credits"; "details";
    "genres"; "runtime"; "video_embed"; "poster_urls"; "clicked";
    "search"; "movies"; "options"; "selected_option"; "movie"; "poster_url";
    "r"; "result"; "e"; "recs"; "source"; "cols"; "idx"; "rec"; "poster";
    "title"; "match"; "msg"; "prompt"; "recent_msgs"; "clean_msgs";
    "response_text" ].

(** Looking up a global name that is neither bound by the script nor a
    builtin raises [NameError]. *)
Definition load_global (name : string) : M unit :=
  if bool_decide (name ∈ module_globals) then mret tt else raise (NameError name).

(** <<
    if st.session_state.get("show_dialog") and st.session_state.get("selected_rec"):
        show_movie_dialog(st.session_state.selected_rec)
        st.session_state.show_dialog = False
    >>
    The script has no definition of [show_movie_dialog] to run: the call
    is the lookup of its name. *)
Definition dialog_logic : M unit :=
  s ← get_session;
  if default false (show_dialog s) && py_truthy (default JNull (selected_rec s)) then
    load_global "show_movie_dialog";;
    set_show_dialog false
  else mret tt.

(** A run on the search page from the grid to the end of the script. *)
Definition grid_and_dialog (clicked : option nat) : M unit :=
  recommendations_grid clicked;;
  dialog_logic.

End PythonInt.

(** * Vocabulary of the statements *)

Definition result_of {A} (r : outcome A * world) : outcome A := r.1.
Definition world_after {A} (r : outcome A * world) : world := r.2.

(** The events and requests a computation adds to a world. *)
Definition extends_by (w w' : world) (n : nat) (evs : list event) : Prop :=
  w' = World (session w) (net w) (calls w + n) (trace w ++ evs).

Definition is_request (ev : event) : bool :=
  match ev with EvRequest _ => true | _ => false end.

(** ** Wake-up *)

Definition probe_ok (a : net_result) : bool :=
  match a with
  | NetResp r => ok r
  | NetRaise => false
  end.

(** The answer to the [i]-th retry (from 0) of a loop that starts when
    [c] requests have been made. *)
Definition retry_at (nt : nat -> request -> net_result) (c i : nat) : net_result :=
  nt (c + i)%nat (health_probe 5).

(** What a failed retry leaves behind: the probe, and the 2 s sleep when
    the probe raised. *)
Definition failed_retry_events (a : net_result) : list event :=
  match a with
  | NetRaise => [EvRequest (health_probe 5); EvSleep 2]
  | NetResp _ => [EvRequest (health_probe 5)]
  end.

Definition failed_from (nt : nat -> request -> net_result) (c k : nat) : list event :=
  mjoin ((fun i => failed_retry_events (retry_at nt c i)) <$> seq 0 k).

(** The answer to the fast probe and to the [i]-th retry of a wake-up
    that starts in [w], and the events of its first [k] retries when they
    all fail. *)
Definition fast_answer (w : world) : net_result := net w (calls w) (health_probe 2).
Definition retry_answer (w : world) (i : nat) : net_result :=
  retry_at (net w) (calls w + 1) i.
Definition failed_retries (w : world) (k : nat) : list event :=
  failed_from (net w) (calls w + 1) k.

(** The wake-up routine as the code has it, case by case: the verdict,
    the number of probes and the events. *)
Inductive wake_up_spec (w : world) : bool -> nat -> list event -> Prop :=
| wake_fast :
    probe_ok (fast_answer w) = true ->
    wake_up_spec w true 1 [EvRequest (health_probe 2)]
| wake_retry (k : nat) :
    probe_ok (fast_answer w) = false ->
    (k < 30)%nat ->
    (forall i, (i < k)%nat -> probe_ok (retry_answer w i) = false) ->
    probe_ok (retry_answer w k) = true ->
    wake_up_spec w true (2 + k)
      (EvRequest (health_probe 2) :: failed_retries w k ++
       [EvRequest (health_probe 5); EvToast "System Online!"])
| wake_exhausted :
    probe_ok (fast_answer w) = false ->
    (forall i, (i < 30)%nat -> probe_ok (retry_answer w i) = false) ->
    wake_up_spec w false 31
      (EvRequest (health_probe 2) :: failed_retries w 30).

(** The claim's reading: two retries never follow each other directly,
    a 2 s sleep lies between them. *)
Definition sleeps_between_retries (evs : list event) : Prop :=
  forall pre post,
    evs <> pre ++ [EvRequest (health_probe 5); EvRequest (health_probe 5)] ++ post.

(** A backend that answers every request with an error status. *)
Definition always_503 : nat -> request -> net_result :=
  fun _ _ => NetResp (Response false None).

Definition empty_session : session_state := Session None None None None None None.

(** ** Chat *)

(** The last [n] entries of a list. *)
Definition last_entries {A} (n : nat) (l : list A) : list A := rev (take n (rev l)).

(** The payload in the claim's words: the last 6 entries without the
    messages whose role is neither "user" nor "assistant". *)
Definition claimed_payload (transcript : list message) : list message :=
  filter (fun m => role m = "user" \/ role m = "assistant") (last_entries 6 transcript).

(** The ways the request of a chat turn fails: the call raises, the
    status is an error, or the reply cannot be read. *)
Inductive chat_failure : net_result -> Prop :=
| chat_raises : chat_failure NetRaise
| chat_not_ok b : chat_failure (NetResp (Response false b))
| chat_undecodable : chat_failure (NetResp (Response true None))
| chat_unreadable reply e :
    py_getitem reply "content" = Raised e ->
    chat_failure (NetResp (Response true (Some reply))).

Definition is_error (ev : event) : bool :=
  match ev with
  | EvError _ | EvErrorExn _ _ => true
  | _ => false
  end.

Definition user_message (prompt : string) : message := Message "user" (JStr prompt).

Definition with_history (s : session_state) (h : list message) : session_state :=
  Session (backend_ready s) (Some h) (recs s) (source_movie s)
          (selected_rec s) (show_dialog s).

(** What a turn makes of the answer to its request: the reply text, or
    the error it shows. *)
Definition chat_reply (a : net_result) : json + event :=
  match a with
  | NetRaise => inr (EvErrorExn "Error: " RequestException)
  | NetResp (Response false _) => inr (EvError "AI Brain Offline.")
  | NetResp (Response true None) => inr (EvErrorExn "Error: " JSONDecodeError)
  | NetResp (Response true (Some reply)) =>
      match py_getitem reply "content" with
      | Returned text => inl text
      | Raised e => inr (EvErrorExn "Error: " e)
      end
  end.

(** ** Credits *)

(** Failure of a fetch in the sense of the specification: network
    failure, error status, undecodable body. *)
Definition fetch_failed (a : net_result) : Prop :=
  match a with
  | NetRaise => True
  | NetResp r => ok r = false \/ body r = None
  end.

(** The failures that reach the [except] clause as an exception. *)
Inductive fetch_raises : net_result -> Prop :=
| fetch_raises_request : fetch_raises NetRaise
| fetch_raises_decode b : fetch_raises (NetResp (Response b None)).

Record crew_member := CrewMember { member_name : string; member_job : string }.

(** [c] is a cast entry named [n]; [c] is the crew entry of [m]. *)
Definition cast_entry (c : json) (n : string) : Prop :=
  exists o, c = JObj o /\ o !! "name" = Some (JStr n).
Definition crew_entry (c : json) (m : crew_member) : Prop :=
  exists o, c = JObj o /\ o !! "name" = Some (JStr (member_name m)) /\
            o !! "job" = Some (JStr (member_job m)).

(** The name of the first crew member whose job is "Director". *)
Definition director_name (crew : list crew_member) : string :=
  match List.find (fun m => String.eqb (member_job m) "Director") crew with
  | Some m => member_name m
  | None => "Unknown"
  end.

(** What [fetch_credits] makes of an answer, as the amended claim has it. *)
Inductive credits_spec : net_result -> credits -> Prop :=
| credits_failed a :
    fetch_raises a ->
    credits_spec a (Credits "N/A" (JStr "N/A"))
| credits_data b (data : gmap string json) cs names cr members :
    default (JArr []) (data !! "cast") = JArr cs ->
    Forall2 cast_entry (take 3 cs) names ->
    default (JArr []) (data !! "crew") = JArr cr ->
    Forall2 crew_entry cr members ->
    credits_spec (NetResp (Response b (Some (JObj data))))
      (Credits (join ", " names) (JStr (director_name members))).

(** ** Watch providers *)




(** ** Sample worlds *)

(** A backend that cannot be reached: every request raises. *)
Definition unreachable : nat -> request -> net_result := fun _ _ => NetRaise.

(** A fresh process with the given session and network. *)
Definition start (s : session_state) (nt : nat -> request -> net_result) : world :=
  World s nt 0 [].

Definition session_with_history (h : list message) : session_state :=
  Session (Some true) (Some h) None None None None.

(** Ten messages of alternating roles with a "system" message in the
    middle. *)
Definition sample_transcript : list message :=
  [ Message "assistant" (JStr "a0"); Message "user" (JStr "u1");
    Message "assistant" (JStr "a2"); Message "user" (JStr "u3");
    Message "assistant" (JStr "a4"); Message "user" (JStr "u5");
    Message "system" (JStr "be brief");
    Message "assistant" (JStr "a6"); Message "user" (JStr "u7");
    Message "assistant" (JStr "a8") ].

(** A transcript with a message of another role. *)
Definition tool_transcript : list message :=
  [ Message "assistant" (JStr "a0"); Message "tool" (JStr "lookup") ].

(** The body TMDB sends with an error status. *)
Definition tmdb_error_body : json :=
  JObj (<["success" := JBool false]>
        (<["status_code" := JInt 34]>
         (<["status_message" := JStr "The resource you requested could not be found."]> ∅))).

(** A metadata provider that answers every request with an error status
    and that body. *)
Definition tmdb_not_found : nat -> request -> net_result :=
  fun _ _ => NetResp (Response false (Some tmdb_error_body)).

Definition person (name : string) : json := JObj (<["name" := JStr name]> ∅).
Definition crew_person (name job : string) : json :=
  JObj (<["name" := JStr name]> (<["job" := JStr job]> ∅)).

(** A credits answer with four cast entries and a director among the crew. *)
Definition sample_credits_body : gmap string json :=
  <["cast" := JArr [person "Ann"; person "Bob"; person "Cy"; person "Di"]]>
  (<["crew" := JArr [crew_person "Ed" "Producer"; crew_person "Flo" "Director";
                     crew_person "Gus" "Director"]]> ∅).

Definition tmdb_credits : nat -> request -> net_result :=
  fun _ _ => NetResp (Response true (Some (JObj sample_credits_body))).

(** A watch-provider answer without the primary region. *)
Definition sample_flatrate : json := JArr [JObj (<["provider_name" := JStr "Flix"]> ∅)].


(** ** Similarity scores *)

(** A similarity score in [0,1] as the backend can send it, an [int] or a
    [float], with the value of [score * 100] as Python computes it: exact
    on integers, the binary64 product on floats. *)
Inductive score_times_100 : json -> Q -> Prop :=
| score_int z :
    0 <= z <= 1 ->
    score_times_100 (JInt z) (inject_Z (z * 100))
| score_float s :
    in_unit_interval s ->
    score_times_100 (JFloat s) (float_value (float_mul s float_hundred)).

(** 0.873 and 0.7, rounded to binary64. *)
Definition float_0_873 : spec_float := S754_finite false 7863284949388886 (-53).
Definition float_0_7 : spec_float := S754_finite false 6305039478318694 (-53).

(** A parser of integer literals that rejects every text. *)
Definition no_int_of_str : string -> outcome Z := fun _ => Raised ValueError.

(** ** The grid *)

(** The session after a click on the Details button of [rec]. *)
Definition with_details (s : session_state) (rec : json) : session_state :=
  Session (backend_ready s) (chat_history s) (recs s) (source_movie s)
          (Some rec) (Some true).

(** The recommendation whose Details button was clicked, among the cards
    [items] that start at index [base]. *)
Definition clicked_rec (clicked : option nat) (base : nat) (items : list json) : option json :=
  match clicked with
  | Some idx => if bool_decide (base <= idx)%nat then items !! (idx - base)%nat else None
  | None => None
  end.

(** A recommendation whose card can be drawn: an object whose poster
    resolves and whose score converts to a percentage. *)
Definition card_renders (int_of_str : string -> outcome Z) (rec : json) : Prop :=
  exists o poster percent,
    rec = JObj o /\
    fetch_poster (default JNull (o !! "poster_path")) = Returned poster /\
    match_pct int_of_str (default (JInt 0) (o !! "similarity_score")) = Returned percent.

(** The source movie of the grid is absent or an object. *)
Definition source_is_object (s : session_state) : Prop :=
  exists o, default (JObj ∅) (source_movie s) = JObj o.

Definition sample_movie : json :=
  JObj (<["id" := JInt 27205]> (<["title" := JStr "Inception"]> ∅)).

Definition interstellar : json :=
  JObj (<["title" := JStr "Interstellar"]>
        (<["poster_path" := JStr "/interstellar.jpg"]>
         (<["similarity_score" := JFloat float_0_873]> ∅))).
Definition tenet : json :=
  JObj (<["title" := JStr "Tenet"]>
        (<["poster_path" := JNull]>
         (<["similarity_score" := JInt 1]> ∅))).
Definition sample_recs : list json := [interstellar; tenet].

(** A backend that answers with two recommendations. *)
Definition backend_recommends : nat -> request -> net_result :=
  fun _ _ => NetResp (Response true (Some (JObj (<["recommendations" := JArr sample_recs]> ∅)))).

(** A session on the search page after the backend woke up, and the world
    after a click on "Get Similar Recommendations" for [sample_movie]. *)
Definition ready_session : session_state := Session (Some true) None None None None None.
Definition world_with_recs : world :=
  world_after (get_similar_click sample_movie (start ready_session backend_recommends)).

(** * More of the script *)

(** ** Accessors as functions of the answer

    [fetch_trailer], [fetch_tmdb_details] and [fetch_trending_movies] make
    one request each, to endpoints outside [endpoint].  They are
    embedded as functions of the answer [a] to that request: what the body
    of the [try] computes from it, and what the [except] clause catches. *)

#[global] Instance outcome_ret : MRet outcome := fun A a => Returned a.
#[global] Instance outcome_bind : MBind outcome := fun A B f o =>
  match o with
  | Returned a => f a
  | Raised e => Raised e
  end.

(** [try: body  except (c1, c2, ...): handler] without effects. *)
Definition outcome_except {A} (body : outcome A) (classes : list exn_class)
    (handler : exn -> outcome A) : outcome A :=
  match body with
  | Returned a => Returned a
  | Raised e => if existsb (isinstance e) classes then handler e else Raised e
  end.

(** [r = requests.get(...); data = r.json()] *)
Definition answer_json (a : net_result) : outcome json :=
  match a with
  | NetRaise => Raised RequestException
  | NetResp r =>
      match body r with
      | Some j => Returned j
      | None => Raised JSONDecodeError
      end
  end.

(** [v[i]] with an integer index.  A JSON object has string keys only. *)
Definition py_index (v : json) (i : Z) : outcome json :=
  match v with
  | JArr l =>
      let j := if i <? 0 then i + Z.of_nat (length l) else i in
      if j <? 0 then Raised IndexError
      else match l !! Z.to_nat j with
           | Some x => Returned x
           | None => Raised IndexError
           end
  | JStr s =>
      let j := if i <? 0 then i + Z.of_nat (String.length s) else i in
      if j <? 0 then Raised IndexError
      else match String.get (Z.to_nat j) s with
           | Some c => Returned (JStr (String c EmptyString))
           | None => Raised IndexError
           end
  | JObj _ => Raised KeyError
  | _ => Raised TypeError
  end.

(** The loop of [fetch_trailer]:
    <<
        for v in data.get("results", []):
            if v.get("type") == "Trailer":
                return v.get("key")
    >>
    [Some key] stands for the [return] inside the loop. *)
Fixpoint first_trailer (videos : list json) : outcome (option json) :=
  match videos with
  | [] => Returned None
  | v :: rest =>
      match py_get v "type" JNull with
      | Raised e => Raised e
      | Returned ty =>
          if py_eq_str ty "Trailer" then
            match py_get v "key" JNull with
            | Raised e => Raised e
            | Returned key => Returned (Some key)
            end
          else first_trailer rest
      end
  end.

(** <<
    def fetch_trailer(movie_id):
        try:
            r = requests.get(".../movie/{movie_id}/videos", params=..., timeout=3)
            data = r.json()
            for v in data.get("results", []):
                if v.get("type") == "Trailer":
                    return v.get("key")
            if data.get("results"):
                return data["results"][0].get("key")
        except (requests.RequestException, KeyError, IndexError):
            pass
        return None
    >> *)
Definition fetch_trailer (a : net_result) : outcome json :=
  outcome_except
    (data ← answer_json a;
     results ← py_get data "results" (JArr []);
     videos ← py_iter results;
     found ← first_trailer videos;
     match found with
     | Some key => Returned key
     | None =>
         again ← py_get data "results" JNull;
         if py_truthy again then
           all ← py_getitem data "results";
           first ← py_index all 0;
           py_get first "key" JNull
         else Returned JNull
     end)
    [CRequestException; CKeyError; CIndexError]
    (fun _ => Returned JNull).

(** <<
    def fetch_tmdb_details(movie_id):
        try:
            r = requests.get(".../movie/{movie_id}", params=..., timeout=3)
            return r.json()
        except (requests.RequestException, ValueError):
            return {}
    >> *)
Definition fetch_tmdb_details (a : net_result) : outcome json :=
  outcome_except (answer_json a) [CRequestException; CValueError]
    (fun _ => Returned (JObj ∅)).

(** <<
    def fetch_trending_movies():
        try:
            r = requests.get(".../trending/movie/week", params=..., timeout=3)
            return r.json().get("results", [])
        except Exception:
            return []
    >> *)
Definition fetch_trending_movies (a : net_result) : outcome json :=
  outcome_except
    (data ← answer_json a; py_get data "results" (JArr []))
    [CException]
    (fun _ => Returned (JArr [])).

(** The genres of the billboard on the landing page (line 650):
    [", ".join([g["name"] for g in details.get("genres", [])[:2]])]. *)
Definition hero_genres (details : json) : outcome string :=
  field ← py_get details "genres" (JArr []);
  first2 ← py_slice_to 2 field;
  items ← py_iter first2;
  names ← comprehension (fun g => py_getitem g "name") items;
  py_join ", " names.

(** A [JStr] holds a text as its UTF-8 bytes, while Python counts the
    characters of a [str] in code points.  A byte of the form 10xxxxxx
    continues the code point that the bytes before it began. *)
Definition utf8_continuation (a : Ascii.ascii) : bool :=
  let b := Ascii.N_of_ascii a in (128 <=? b)%N && (b <? 192)%N.

(** The first [n] code points of a text. *)
Fixpoint utf8_take (n : nat) (s : string) : string :=
  match s with
  | EmptyString => EmptyString
  | String a rest =>
      if utf8_continuation a then String a (utf8_take n rest)
      else match n with
           | O => EmptyString
           | S n' => String a (utf8_take n' rest)
           end
  end.

(** [v[:n]] for [n >= 0], a string being cut by characters. *)
Definition py_text_slice_to (n : nat) (v : json) : outcome json :=
  match v with
  | JArr l => Returned (JArr (take n l))
  | JStr s => Returned (JStr (utf8_take n s))
  | _ => Raised TypeError
  end.

Section Formatting.

(** [str(v)] for a value that is not a string, as an f-string inserts it,
    is not described here: the definitions below take it as given. *)
Variable py_str : json -> string.

(** [f"{v}"] *)
Definition format_value (v : json) : string :=
  match v with
  | JStr s => s
  | _ => py_str v
  end.

(** The runtime of the billboard (line 651):
    [f"{details.get('runtime', 0)} min" if details.get('runtime') else ""]. *)
Definition hero_runtime (details : json) : outcome string :=
  cond ← py_get details "runtime" JNull;
  if py_truthy cond then
    runtime ← py_get details "runtime" (JInt 0);
    Returned (format_value runtime +:+ " min")
  else Returned "".

(** <<
    def format_option(m):
        title = m.get("title", "Unknown")
        year = m.get("release_date", "")[:4] if m.get("release_date") else ""
        return f"{title} ({year})" if year else title
    >> *)
Definition format_option (m : json) : outcome json :=
  title ← py_get m "title" (JStr "Unknown");
  cond ← py_get m "release_date" JNull;
  year ← (if py_truthy cond then
            date ← py_get m "release_date" (JStr "");
            py_text_slice_to 4 date
          else Returned (JStr ""));
  if py_truthy year
  then Returned (JStr (format_value title +:+ " (" +:+ format_value year +:+ ")"))
  else Returned title.

End Formatting.

(** ** Vocabulary of the further statements *)

(** An upper bound on the time an event blocks the script: the timeout
    of a request, the length of a sleep. *)
Definition waiting_seconds (ev : event) : Z :=
  match ev with
  | EvRequest rq => req_timeout rq
  | EvSleep seconds => seconds
  | _ => 0
  end.
Definition sleeping_seconds (ev : event) : Z :=
  match ev with
  | EvSleep seconds => seconds
  | _ => 0
  end.
Definition total (f : event -> Z) (evs : list event) : Z :=
  foldr (fun ev acc => f ev + acc) 0 evs.

(** What a search makes of the answer to its request. *)
Definition search_answer (a : net_result) : json :=
  match a with
  | NetResp (Response true (Some movies)) => movies
  | _ => JArr []
  end.
Definition search_feedback (a : net_result) : list event :=
  match a with
  | NetRaise | NetResp (Response true None) => [EvError connection_lost_msg]
  | _ => []
  end.

(** The handler of "Get Similar Recommendations": its request, what it
    makes of the answer (the recommendations, or the error it shows), and
    the session it leaves. *)
Definition similar_request (movie_id : json) : request :=
  Request (BackendRecommendEnriched movie_id 10) 30.
Definition similar_reply (a : net_result) : json + event :=
  match a with
  | NetRaise => inr (EvErrorExn "Connection Error: " RequestException)
  | NetResp (Response false _) => inr (EvError "API Error")
  | NetResp (Response true None) => inr (EvErrorExn "Connection Error: " JSONDecodeError)
  | NetResp (Response true (Some reply)) =>
      match py_getitem reply "recommendations" with
      | Returned recommendations => inl recommendations
      | Raised e => inr (EvErrorExn "Connection Error: " e)
      end
  end.
Definition with_cleared_selection (s : session_state) : session_state :=
  Session (backend_ready s) (chat_history s) (recs s) (source_movie s)
          (Some JNull) (show_dialog s).
Definition with_recommendations (s : session_state) (recommendations movie : json)
    : session_state :=
  Session (backend_ready s) (chat_history s) (Some recommendations) (Some movie)
          (Some JNull) (show_dialog s).

(** Transcripts whose roles are among "user", "assistant" and "system".
    The script itself writes "assistant" and "user" messages only. *)
Definition transcript_roles (h : list message) : Prop :=
  Forall (fun m => role m = "user" \/ role m = "assistant" \/ role m = "system") h.

(** Transcripts as the script builds them: greeting, prompts, replies. *)
Definition script_roles (h : list message) : Prop :=
  Forall (fun m => role m = "user" \/ role m = "assistant") h.

(** A recommendation and the card the grid draws for it. *)
Definition card_of (int_of_str : string -> outcome Z) (rec : json) (card : event) : Prop :=
  exists o poster percent,
    rec = JObj o /\
    fetch_poster (default JNull (o !! "poster_path")) = Returned poster /\
    match_pct int_of_str (default (JInt 0) (o !! "similarity_score")) = Returned percent /\
    card = EvCard poster (default JNull (o !! "title")) percent.

(** A crew entry that is not a director's: an object whose job, if any,
    is not "Director". *)
Definition other_job (c : json) : Prop :=
  exists o, c = JObj o /\ py_eq_str (default JNull (o !! "job")) "Director" = false.
Definition director_entry (c : json) (o : gmap string json) : Prop :=
  c = JObj o /\ o !! "job" = Some (JStr "Director").

(** A video of the videos answer. *)
Record video := Video { video_type : string; video_key : string }.
Definition video_entry (c : json) (v : video) : Prop :=
  exists o, c = JObj o /\ o !! "type" = Some (JStr (video_type v)) /\
            o !! "key" = Some (JStr (video_key v)).

(** The key [fetch_trailer] is after: of the first trailer, else of the
    first video, else nothing. *)
Definition trailer_key (videos : list video) : json :=
  match List.find (fun v => String.eqb (video_type v) "Trailer") videos with
  | Some v => JStr (video_key v)
  | None =>
      match videos with
      | v :: _ => JStr (video_key v)
      | [] => JNull
      end
  end.

(** [-1 <= s < 0] for a binary64 number. *)
Definition float_minus_one : spec_float := S754_finite true (2 ^ 52) (-52).
Definition in_negative_unit_interval (s : spec_float) : Prop :=
  valid_binary prec emax s = true /\
  SFleb float_minus_one s = true /\ SFltb s float_zero = true.

(** ** Further sample worlds *)

Definition sample_videos_body : gmap string json :=
  <["results" := JArr
      [ JObj (<["type" := JStr "Teaser"]> (<["key" := JStr "t1"]> ∅));
        JObj (<["type" := JStr "Trailer"]> (<["key" := JStr "k2"]> ∅));
        JObj (<["type" := JStr "Trailer"]> (<["key" := JStr "k3"]> ∅)) ]]> ∅.

(** A search backend that finds one movie. *)
Definition backend_finds : nat -> request -> net_result :=
  fun _ _ => NetResp (Response true (Some (JArr [sample_movie]))).

(** A chat backend that answers every turn. *)
Definition backend_chats : nat -> request -> net_result :=
  fun _ _ => NetResp (Response true (Some (JObj (<["content" := JStr "Try Memento."]> ∅)))).

(** A credits answer whose first director has no name, followed by an
    entry that is not even an object. *)
Definition nameless_director_body : gmap string json :=
  <["cast" := JArr [person "Ann"]]>
  (<["crew" := JArr [crew_person "Ed" "Producer";
                     JObj (<["job" := JStr "Director"]> ∅);
                     crew_person "Gus" "Director"]]> ∅).
Definition junk_after_director_body : gmap string json :=
  <["cast" := JArr [person "Ann"]]>
  (<["crew" := JArr [crew_person "Ed" "Producer"; crew_person "Flo" "Director";
                     JInt 7; JNull]]> ∅).

(** A watch-provider answer whose primary region has no subscription
    list while the secondary region has one. *)
Definition primary_without_flatrate_body : gmap string json :=
  <["results" := JObj (<["IN" := JObj (<["rent" := JArr []]> ∅)]>
                       (<["US" := JObj (<["flatrate" := sample_flatrate]> ∅)]> ∅))]> ∅.


(** A service that answers every request with an ok response and the
    object [data]. *)
Definition answers_with (data : gmap string json) : nat -> request -> net_result :=
  fun _ _ => NetResp (Response true (Some (JObj data))).

(** The session after a Details click on [tenet] in [world_with_recs]. *)
Definition world_after_details : world :=
  world_after (grid_and_dialog no_int_of_str (Some 1%nat) world_with_recs).

(** -0.005, rounded to binary64. *)
Definition float_minus_0_005 : spec_float := S754_finite true 5764607523034235 (-60).

(** * Theorems *)

(** ** Traces *)

Lemma drop_trace {A} (tr evs : list A) : drop (length tr) (tr ++ evs) = evs.
Proof. by rewrite drop_app_length. Qed.

(** ** Poster URL resolution *)

(** C1 (amended).  For a poster path that is absent or a string the
    resolver never raises: it returns the path prefixed with the image base
    when the path is non-empty and does not start with "http", and the
    placeholder when the path is absent, empty or starts with "http".  An
    absolute URL is therefore never prefixed, and not passed through
    either. *)
Theorem fetch_poster_resolves (p : option string) :
  fetch_poster (path_value p) =
  Returned match p with
           | None | Some "" => placeholder
           | Some s => if startswith "http" s then placeholder else image_base +:+ s
           end.
Proof.
  destruct p as [[|a s]|]; try reflexivity.
  unfold fetch_poster; cbn [path_value py_truthy].
  by destruct (startswith "http" (String a s)).
Qed.

(** C1 as stated fails: an absolute URL does not pass through unchanged,
    the resolver answers with the placeholder. *)
Lemma fetch_poster_absolute_url_not_passed_through :
  let url := "https://image.tmdb.org/t/p/w500/abc.jpg" in
  startswith "http" url = true /\
  fetch_poster (path_value (Some url)) = Returned placeholder /\
  fetch_poster (path_value (Some url)) <> Returned url.
Proof. repeat split; try reflexivity. discriminate. Qed.

(** C10.  Applying the resolver twice yields the placeholder, whatever
    the path: every output starts with "http", and an input that starts
    with "http" maps to the placeholder. *)
Theorem fetch_poster_twice (p : option string) :
  exists u, fetch_poster (path_value p) = Returned u /\
            startswith "http" u = true /\
            fetch_poster (JStr u) = Returned placeholder.
Proof.
  destruct p as [[|a s]|]; try (exists placeholder; repeat split; reflexivity).
  unfold fetch_poster at 1; cbn [path_value py_truthy].
  destruct (startswith "http" (String a s)).
  - exists placeholder. repeat split; reflexivity.
  - exists (image_base +:+ String a s). repeat split; reflexivity.
Qed.

(** ** The chat turn *)

Lemma py_slice_from_last {A} (n : nat) (l : list A) :
  (0 < n)%nat ->
  py_slice_from (- Z.of_nat n) l = last_entries n l.
Proof.
  intros Hn. unfold py_slice_from, last_entries.
  rewrite firstn_rev, rev_involutive.
  f_equal. destruct (Z.ltb_spec (- Z.of_nat n) 0); lia.
Qed.

Lemma clean_msgs_filter (t : list message) :
  clean_msgs t = filter (fun m => role m ≠ "system") (last_entries 6 t).
Proof.
  unfold clean_msgs, recent_msgs.
  change (-6) with (- Z.of_nat 6). rewrite py_slice_from_last by lia.
  rewrite <- (list_fmap_id (filter _ _)) at 2.
  apply list_fmap_ext. by intros i [].
Qed.

(** One turn, whatever the backend answers: the prompt is appended and
    shown, one request goes out, and either the reply is shown and
    appended or an error is shown. *)
Lemma chat_turn_run (w : world) (h : list message) (prompt : string) :
  chat_history (session w) = Some h ->
  let t := h ++ [user_message prompt] in
  let rq := Request (BackendChat (clean_msgs t)) 60 in
  let a := chat_reply (net w (calls w) rq) in
  chat_turn prompt w =
  (Returned tt,
   World (with_history (session w)
            match a with inl text => t ++ [Message "assistant" text] | inr _ => t end)
         (net w) (S (calls w))
         (trace w ++ [EvMarkdown (JStr prompt); EvRequest rq;
                      match a with inl text => EvMarkdown text | inr ev => ev end])).
Proof.
  destruct w as [[br ch rc sm sr sd] nt c tr]; cbn [session chat_history].
  intros ->. cbv zeta.
  unfold chat_turn, append_chat, session_attr, set_chat_history, try_except,
    requests_call, resp_json, st_error, emit, get_session, put_session, lift,
    raise, with_history, chat_reply, mbind, M_bind, mret, M_ret.
  cbn -[clean_msgs py_getitem].
  destruct (nt c _) as [|[[|] [reply|]]]; cbn -[clean_msgs py_getitem];
    rewrite <- ?app_assoc; try reflexivity.
  destruct (py_getitem reply "content"); cbn; rewrite <- ?app_assoc; reflexivity.
Qed.

Lemma chat_reply_error (a : net_result) (ev : event) :
  chat_reply a = inr ev -> is_error ev = true.
Proof.
  destruct a as [|[[|] [reply|]]]; cbn [chat_reply];
    try destruct (py_getitem reply "content"); intros [= <-]; reflexivity.
Qed.

(** On a chat turn exactly one request is sent, to the chat endpoint with
    a 60 s timeout.  Its payload is the last 6 entries of the transcript
    (the prompt included) without the messages whose role is "system", in
    their original order. *)
Theorem chat_turn_payload (w : world) (h : list message) (prompt : string) :
  chat_history (session w) = Some h ->
  let t := h ++ [user_message prompt] in
  exists payload,
    List.filter is_request
      (drop (length (trace w)) (trace (world_after (chat_turn prompt w)))) =
      [EvRequest (Request (BackendChat payload) 60)] /\
    payload = filter (fun m => role m ≠ "system") (last_entries 6 t) /\
    sublist payload t.
Proof.
  intros Hh t. exists (clean_msgs t).
  rewrite (chat_turn_run w h prompt Hh). unfold world_after; cbn [snd trace].
  rewrite drop_trace. split; [|split].
  - destruct (chat_reply _) as [text|ev] eqn:Ha; [reflexivity|].
    apply chat_reply_error in Ha. by destruct ev.
  - apply clean_msgs_filter.
  - rewrite clean_msgs_filter. etrans; [apply sublist_filter|].
    unfold last_entries. rewrite firstn_rev, rev_involutive.
    apply sublist_drop.
Qed.

Lemma chat_turn_payload_witness :
  let w := start (session_with_history sample_transcript) unreachable in
  chat_history (session w) = Some sample_transcript /\
  exists payload,
    List.filter is_request
      (drop (length (trace w)) (trace (world_after (chat_turn "next" w)))) =
      [EvRequest (Request (BackendChat payload) 60)] /\
    payload = filter (fun m => role m ≠ "system")
                (last_entries 6 (sample_transcript ++ [user_message "next"])) /\
    sublist payload (sample_transcript ++ [user_message "next"]).
Proof.
  split; [reflexivity|].
  apply (chat_turn_payload (start (session_with_history sample_transcript) unreachable)
           sample_transcript "next").
  reflexivity.
Defined.

(** The filter names the one role it drops: were the session to hold a
    message of a fourth role, which the script never writes, it would be
    sent along. *)
Lemma chat_turn_sends_other_roles :
  let w := start (session_with_history tool_transcript) unreachable in
  List.filter is_request (trace (world_after (chat_turn "next" w))) <>
  [EvRequest (Request (BackendChat
     (claimed_payload (tool_transcript ++ [user_message "next"]))) 60)].
Proof. vm_compute. discriminate. Qed.

(** C7.  When the request of a chat turn fails (it raises, the status is
    an error, or the reply cannot be read), the turn ends normally with an
    error on the screen, and the transcript is the old one plus the user's
    prompt: no assistant message is appended. *)
Theorem chat_failure_keeps_history (w : world) (h : list message) (prompt : string) :
  chat_history (session w) = Some h ->
  let t := h ++ [user_message prompt] in
  let rq := Request (BackendChat (clean_msgs t)) 60 in
  chat_failure (net w (calls w) rq) ->
  exists err,
    is_error err = true /\
    chat_turn prompt w =
    (Returned tt,
     World (with_history (session w) t) (net w) (S (calls w))
           (trace w ++ [EvMarkdown (JStr prompt); EvRequest rq; err])).
Proof.
  intros Hh t rq Hfail.
  rewrite (chat_turn_run w h prompt Hh). fold t rq.
  destruct Hfail as [|b| |reply e He]; cbn [chat_reply]; rewrite ?He;
    eexists; (split; [|reflexivity]); reflexivity.
Qed.

Lemma chat_failure_keeps_history_witness :
  let w := start (session_with_history sample_transcript) unreachable in
  let t := sample_transcript ++ [user_message "next"] in
  let rq := Request (BackendChat (clean_msgs t)) 60 in
  chat_history (session w) = Some sample_transcript /\
  chat_failure (net w (calls w) rq) /\
  exists err,
    is_error err = true /\
    chat_turn "next" w =
    (Returned tt,
     World (with_history (session w) t) (net w) (S (calls w))
           (trace w ++ [EvMarkdown (JStr "next"); EvRequest rq; err])).
Proof.
  split; [reflexivity|]. split; [constructor|].
  apply (chat_failure_keeps_history
           (start (session_with_history sample_transcript) unreachable)
           sample_transcript "next"); [reflexivity|constructor].
Defined.

(** ** Search *)

(** C5.  When the readiness flag is false, search returns the empty list
    and shows an error; no request is made. *)
Theorem search_movies_not_ready (query : string) (w : world) :
  backend_ready (session w) = Some false ->
  search_movies query w =
  (Returned (JArr []),
   World (session w) (net w) (calls w) (trace w ++ [EvError unreachable_msg])).
Proof.
  destruct w as [[br ch rc sm sr sd] nt c tr]; cbn [session backend_ready].
  intros ->. reflexivity.
Qed.

Lemma search_movies_not_ready_witness :
  let w := start (Session (Some false) None None None None None) unreachable in
  backend_ready (session w) = Some false /\
  search_movies "Inception" w =
  (Returned (JArr []),
   World (session w) (net w) (calls w) (trace w ++ [EvError unreachable_msg])).
Proof.
  split; [reflexivity|].
  apply (search_movies_not_ready "Inception"
           (start (Session (Some false) None None None None None) unreachable)).
  reflexivity.
Defined.

(** ** Wake-up *)

Lemma failed_from_S (nt : nat -> request -> net_result) (c k : nat) :
  failed_from nt c (S k) = failed_retry_events (nt c (health_probe 5)) ++ failed_from nt (S c) k.
Proof.
  unfold failed_from. cbn [seq fmap list_fmap mjoin list_join].
  unfold retry_at at 1. rewrite Nat.add_0_r. f_equal.
  rewrite <- fmap_S_seq, <- list_fmap_compose. f_equal.
  apply list_fmap_ext. intros _ i _. unfold retry_at; cbn.
  by rewrite Nat.add_succ_r.
Qed.

(** One pass through the body of the retry loop. *)
Lemma wake_up_loop_S (n : nat) (s : session_state) nt (c : nat) (tr : list event) :
  wake_up_loop (S n) (World s nt c tr) =
  match nt c (health_probe 5) with
  | NetResp (Response true _) =>
      (Returned true,
       World s nt (S c) (tr ++ [EvRequest (health_probe 5); EvToast "System Online!"]))
  | a => wake_up_loop n (World s nt (S c) (tr ++ failed_retry_events a))
  end.
Proof.
  cbn [wake_up_loop].
  unfold try_except, requests_call, st_toast, time_sleep, emit, mbind, M_bind, mret, M_ret.
  cbn -[wake_up_loop].
  destruct (nt c (health_probe 5)) as [|[[|] bd]]; cbn -[wake_up_loop];
    rewrite <- ?app_assoc; reflexivity.
Qed.

(** The loop either meets its first successful probe within [n] retries
    or runs through all of them. *)
Lemma wake_up_loop_run (n : nat) : forall (s : session_state) nt (c : nat) (tr : list event),
  (exists k, (k < n)%nat /\
     (forall i, (i < k)%nat -> probe_ok (retry_at nt c i) = false) /\
     probe_ok (retry_at nt c k) = true /\
     wake_up_loop n (World s nt c tr) =
     (Returned true,
      World s nt (c + S k)
        (tr ++ failed_from nt c k ++ [EvRequest (health_probe 5); EvToast "System Online!"])))
  \/
  ((forall i, (i < n)%nat -> probe_ok (retry_at nt c i) = false) /\
   wake_up_loop n (World s nt c tr) =
   (Returned false, World s nt (c + n) (tr ++ failed_from nt c n))).
Proof.
  induction n as [|n IH]; intros s nt c tr.
  - right. split; [lia|]. cbn. by rewrite Nat.add_0_r, app_nil_r.
  - rewrite wake_up_loop_S.
    assert (Hshift : forall i, retry_at nt (S c) i = retry_at nt c (S i)).
    { intros i. unfold retry_at. by rewrite Nat.add_succ_r. }
    destruct (nt c (health_probe 5)) as [|[[|] bd]] eqn:Hc.
    2: { left. exists 0%nat. unfold retry_at. rewrite Nat.add_0_r, Hc.
         repeat split; [lia|lia|]. by rewrite Nat.add_1_r. }
    all: assert (Hhead : probe_ok (retry_at nt c 0) = false)
           by (unfold retry_at; by rewrite Nat.add_0_r, Hc).
    all: assert (Hall : forall m,
             (forall i, (i < m)%nat -> probe_ok (retry_at nt (S c) i) = false) ->
             forall i, (i < S m)%nat -> probe_ok (retry_at nt c i) = false)
           by (intros m H [|i] Hi; [exact Hhead|rewrite <- Hshift; apply H; lia]).
    all: destruct (IH s nt (S c) (tr ++ failed_retry_events (nt c (health_probe 5))))
           as [(k & Hk & Hfail & Hok & Hrun)|[Hfail Hrun]]; rewrite Hc in Hrun.
    1,3: left; exists (S k); split; [lia|]; split; [by apply Hall|];
         split; [by rewrite <- Hshift|].
    3,4: right; split; [by apply Hall|].
    all: rewrite Hrun, failed_from_S, Hc; f_equal; f_equal;
         [lia|by rewrite <- !app_assoc].
Qed.

(** The wake-up routine as it runs.  It always returns.  A fast probe at a
    2 s timeout that succeeds gives true at once.  Otherwise up to 30
    retries at a 5 s timeout follow: the first that succeeds gives true,
    and when all fail the result is false.  A retry that raises is
    followed by a 2 s sleep (also the last one); a retry that is answered
    with an error status is followed by the next retry directly. *)
Theorem wake_up_backend_spec (w : world) :
  exists b n evs,
    wake_up_spec w b n evs /\
    wake_up_backend w =
    (Returned b, World (session w) (net w) (calls w + n) (trace w ++ evs)).
Proof.
  destruct w as [s nt c tr]. cbn [session net calls trace].
  unfold wake_up_backend.
  unfold try_except, requests_call, mbind, M_bind, mret, M_ret.
  cbn -[wake_up_loop].
  destruct (nt c (health_probe 2)) as [|[[|] bd]] eqn:Hfast; cbn -[wake_up_loop].
  2: { exists true, 1%nat, [EvRequest (health_probe 2)]. split.
       - apply wake_fast. unfold fast_answer; cbn. by rewrite Hfast.
       - by rewrite Nat.add_1_r. }
  all: destruct (wake_up_loop_run 30 s nt (S c) (tr ++ [EvRequest (health_probe 2)]))
         as [(k & Hk & Hfail & Hok & Hrun)|[Hfail Hrun]]; rewrite Hrun.
  1,3: exists true, (2 + k)%nat,
         (EvRequest (health_probe 2) :: failed_retries (World s nt c tr) k ++
          [EvRequest (health_probe 5); EvToast "System Online!"]); split;
       [ apply (wake_retry _ k);
         [ unfold fast_answer; cbn; by rewrite Hfast
         | lia
         | intros i Hi; unfold retry_answer; cbn; rewrite Nat.add_1_r; by apply Hfail
         | unfold retry_answer; cbn; by rewrite Nat.add_1_r ]
       | ].
  3,4: exists false, 31%nat,
         (EvRequest (health_probe 2) :: failed_retries (World s nt c tr) 30); split;
       [ apply wake_exhausted;
         [ unfold fast_answer; cbn; by rewrite Hfast
         | intros i Hi; unfold retry_answer; cbn; rewrite Nat.add_1_r; by apply Hfail ]
       | ].
  all: unfold failed_retries; cbn [net calls]; rewrite Nat.add_1_r, <- app_assoc;
       f_equal; f_equal; lia.
Qed.

(** X21.  The scenario of a backend that never answers the health probe:
    the connection is marked not ready at load time after 31 probes, and a
    search that follows returns the empty list without another request. *)
Lemma search_after_failed_wake_up (nt : nat -> request -> net_result) (query : string) :
  (forall i rq, probe_ok (nt i rq) = false) ->
  let w := world_after (initialize_connection (start empty_session nt)) in
  backend_ready (session w) = Some false /\
  calls w = 31%nat /\
  result_of (search_movies query w) = Returned (JArr []) /\
  calls (world_after (search_movies query w)) = 31%nat.
Proof.
  intros Hdown.
  assert (Hinit : exists tr,
    initialize_connection (start empty_session nt) =
    (Returned tt, World (Session (Some false) None None None None None) nt 31 tr)).
  { unfold initialize_connection, set_backend_ready, wake_up_backend, try_except,
      requests_call, get_session, put_session, start, mbind, M_bind, mret, M_ret.
    cbn -[wake_up_loop].
    pose proof (Hdown 0%nat (health_probe 2)) as Hfast.
    destruct (wake_up_loop_run 30 empty_session nt 1 [EvRequest (health_probe 2)])
      as [(k & _ & _ & Hok & _)|[_ Hrun]].
    { unfold retry_at in Hok. by rewrite Hdown in Hok. }
    destruct (nt 0%nat (health_probe 2)) as [|[[|] bd]]; [|discriminate Hfast|];
      cbn -[wake_up_loop]; rewrite Hrun; eexists; reflexivity. }
  destruct Hinit as [tr Hinit]. cbv zeta. rewrite Hinit.
  by repeat split.
Qed.

Lemma wake_up_always_503 :
  wake_up_backend (start empty_session always_503) =
  (Returned false,
   World empty_session always_503 31
     (EvRequest (health_probe 2) :: replicate 30 (EvRequest (health_probe 5)))).
Proof. vm_compute. reflexivity. Qed.

(** C3 (code bug).  The routine is to sleep 2 s between failed attempts,
    and does so after a probe that raises.  When the probes are answered
    with an error status instead, all 31 attempts fail and the 30 retries
    follow each other with no sleep between them. *)
Lemma wake_up_no_sleep_on_error_status :
  let r := wake_up_backend (start empty_session always_503) in
  result_of r = Returned false /\
  ~ sleeps_between_retries (drop 1 (trace (world_after r))).
Proof.
  cbv zeta. rewrite wake_up_always_503. split; [reflexivity|].
  intros H. apply (H [] (replicate 28 (EvRequest (health_probe 5)))). reflexivity.
Qed.

(** ** Credits *)

Lemma comprehension_names (cs : list json) (names : list string) :
  Forall2 cast_entry cs names ->
  comprehension (fun c => py_getitem c "name") cs = Returned (JStr <$> names).
Proof.
  induction 1 as [|c n cs names (o & -> & Ho) _ IH]; [reflexivity|].
  cbn [comprehension py_getitem]. by rewrite Ho, IH.
Qed.

Lemma py_join_strings (sep : string) (names : list string) :
  py_join sep (JStr <$> names) = Returned (join sep names).
Proof.
  unfold py_join.
  enough (comprehension
            (fun v => match v with JStr s => Returned s | _ => Raised TypeError end)
            (JStr <$> names) = Returned names) as -> by reflexivity.
  induction names as [|n names IH]; [reflexivity|].
  cbn [fmap list_fmap comprehension]. fold (JStr <$> names). by rewrite IH.
Qed.

Lemma first_director_name (cr : list json) (members : list crew_member) :
  Forall2 crew_entry cr members ->
  first_director cr = Returned (JStr (director_name members)).
Proof.
  unfold director_name.
  induction 1 as [|c m cr members (o & -> & Hn & Hj) _ IH]; [reflexivity|].
  cbn [first_director py_get List.find]. rewrite Hj.
  cbn [default from_option id py_eq_str].
  destruct (String.eqb (member_job m) "Director").
  - cbn [py_getitem]. by rewrite Hn.
  - exact IH.
Qed.

(** C4 (amended).  The credits accessor makes one request and always
    returns.  From a JSON object it takes the names of the first 3 cast
    entries, in order and joined by ", ", and as director the name of the
    first crew entry whose job is "Director", "Unknown" when there is none;
    the status of the response plays no part, so an error answer whose
    body has neither cast nor crew gives an empty cast and "Unknown".
    When the request raises or the body is not JSON the result is cast
    "N/A" and director "N/A", which differs from the "Unknown" case. *)
Theorem fetch_credits_spec (movie_id : json) (w : world) (c : credits) :
  let rq := Request (TmdbCredits movie_id) 3 in
  credits_spec (net w (calls w) rq) c ->
  fetch_credits movie_id w =
    (Returned c, World (session w) (net w) (S (calls w)) (trace w ++ [EvRequest rq])) /\
  (fetch_raises (net w (calls w) rq) ->
   c = Credits "N/A" (JStr "N/A") /\ director c <> JStr "Unknown").
Proof.
  intros rq Hspec. destruct w as [s nt k tr]. cbn [session net calls trace] in *.
  unfold fetch_credits, try_except, requests_call, resp_json, lift, raise,
    mbind, M_bind, mret, M_ret.
  cbn [session net calls trace]. fold rq.
  remember (nt k rq) as a eqn:Ha.
  destruct Hspec as [a Hraise|b data cs names cr members Hcast Hnames Hcrew Hmembers].
  - split; [|intros _; split; [reflexivity|discriminate]].
    destruct Hraise; reflexivity.
  - split; [|intros Hraise; inversion Hraise].
    cbn [body py_get]. rewrite Hcast, Hcrew. cbn [py_slice_to py_iter].
    by rewrite (comprehension_names _ _ Hnames), (first_director_name _ _ Hmembers),
      py_join_strings.
Qed.

Lemma sample_credits_spec :
  credits_spec (tmdb_credits 0%nat (Request (TmdbCredits (JInt 550)) 3))
    (Credits "Ann, Bob, Cy" (JStr "Flo")).
Proof.
  apply (credits_data true sample_credits_body
           [person "Ann"; person "Bob"; person "Cy"; person "Di"]
           ["Ann"; "Bob"; "Cy"]
           [crew_person "Ed" "Producer"; crew_person "Flo" "Director";
            crew_person "Gus" "Director"]
           [CrewMember "Ed" "Producer"; CrewMember "Flo" "Director";
            CrewMember "Gus" "Director"]).
  - reflexivity.
  - repeat constructor; eexists; (split; [reflexivity|reflexivity]).
  - reflexivity.
  - repeat constructor; eexists; (split; [reflexivity|split; reflexivity]).
Defined.

Lemma fetch_credits_spec_witness :
  let w := start empty_session tmdb_credits in
  let rq := Request (TmdbCredits (JInt 550)) 3 in
  let c := Credits "Ann, Bob, Cy" (JStr "Flo") in
  credits_spec (net w (calls w) rq) c /\
  (fetch_credits (JInt 550) w =
     (Returned c, World (session w) (net w) (S (calls w)) (trace w ++ [EvRequest rq])) /\
   (fetch_raises (net w (calls w) rq) ->
    c = Credits "N/A" (JStr "N/A") /\ director c <> JStr "Unknown")).
Proof.
  split; [exact sample_credits_spec|].
  apply (fetch_credits_spec (JInt 550) (start empty_session tmdb_credits)
           (Credits "Ann, Bob, Cy" (JStr "Flo"))).
  exact sample_credits_spec.
Defined.

(** C4 as stated fails: a fetch that fails with an error status does not
    give "N/A", it gives the empty cast and "Unknown". *)
Lemma fetch_credits_error_status :
  let w := start empty_session tmdb_not_found in
  let rq := Request (TmdbCredits (JInt 550)) 3 in
  fetch_failed (net w (calls w) rq) /\
  result_of (fetch_credits (JInt 550) w) = Returned (Credits "" (JStr "Unknown")) /\
  result_of (fetch_credits (JInt 550) w) <> Returned (Credits "N/A" (JStr "N/A")).
Proof.
  split; [left; reflexivity|].
  split; [vm_compute; reflexivity|vm_compute; discriminate].
Qed.

(** ** Watch providers *)




(** ** Match percentage *)

Lemma digits2_pos_size (p : positive) : digits2_pos p = Pos.size p.
Proof. induction p; cbn; congruence. Qed.

Lemma Zdigits2_bound (m n : Z) : 0 <= m < 2 ^ n -> 0 <= n -> Zdigits2 m <= n.
Proof.
  intros [Hm Hlt] Hn. destruct m as [|p|p]; [cbn; lia| |lia].
  cbn. rewrite digits2_pos_size.
  pose proof (Pos.size_le p) as Hs.
  apply Pos2Z.pos_le_pos in Hs. rewrite Pos2Z.inj_pow in Hs.
  change (Z.pos p~0) with (2 * Z.pos p) in Hs.
  assert (H : 2 ^ Z.pos (Pos.size p) < 2 ^ (n + 1)).
  { rewrite Z.pow_add_r by lia. lia. }
  apply Z.pow_lt_mono_r_iff in H; lia.
Qed.

Lemma mantissa_bound (p : positive) (n : Z) :
  Z.pos (digits2_pos p) <= n -> Z.pos p < 2 ^ n.
Proof.
  intros Hn. rewrite digits2_pos_size in Hn.
  pose proof (Pos.size_gt p) as Hs.
  apply Pos2Z.pos_lt_pos in Hs. rewrite Pos2Z.inj_pow in Hs.
  eapply Z.lt_le_trans; [exact Hs|]. apply Z.pow_le_mono_r; lia.
Qed.

Lemma shr_1_bound (r : shr_record) :
  0 <= shr_m r -> 0 <= shr_m (shr_1 r) <= shr_m r.
Proof. destruct r as [[|[p|p|]|p] b c]; cbn; lia. Qed.

Lemma iter_shr_1_bound (n : positive) : forall r : shr_record,
  0 <= shr_m r -> 0 <= shr_m (SpecFloat.iter_pos shr_1 n r) <= shr_m r.
Proof.
  induction n as [n IH|n IH|]; intros r Hr; cbn [SpecFloat.iter_pos].
  - pose proof (shr_1_bound r Hr) as H1.
    pose proof (IH (shr_1 r) ltac:(lia)) as H2.
    pose proof (IH (SpecFloat.iter_pos shr_1 n (shr_1 r)) ltac:(lia)). lia.
  - pose proof (IH r Hr) as H1.
    pose proof (IH (SpecFloat.iter_pos shr_1 n r) ltac:(lia)). lia.
  - by apply shr_1_bound.
Qed.

Lemma shr_fexp_bound (m e : Z) (l : location) :
  0 <= m ->
  0 <= shr_m (shr_fexp prec emax m e l).1 <= m /\
  (shr_fexp prec emax m e l).2 = Z.max e (fexp prec emax (Zdigits2 m + e)).
Proof.
  intros Hm. unfold shr_fexp, shr.
  assert (H0 : shr_m (shr_record_of_loc m l) = m) by (by destruct l as [|[]]).
  destruct (fexp prec emax (Zdigits2 m + e) - e) as [|n|n] eqn:Hn; cbn [fst snd].
  - rewrite H0. lia.
  - pose proof (iter_shr_1_bound n (shr_record_of_loc m l)) as H. rewrite H0 in H. lia.
  - rewrite H0. lia.
Qed.

Lemma round_nearest_even_bound (m : Z) (l : location) :
  m <= round_nearest_even m l <= m + 1.
Proof. destruct l as [|[]]; cbn; try destruct (Z.even m); lia. Qed.

(** Rounding a product of two binary64 mantissas with a small exponent
    neither overflows nor changes the sign. *)
Lemma round_product_finite (sx : bool) (mx ex : Z) :
  0 < mx < 2 ^ 106 -> ex <= -98 ->
  binary_round_aux prec emax sx mx ex loc_Exact = S754_zero sx \/
  exists m e, binary_round_aux prec emax sx mx ex loc_Exact = S754_finite sx m e.
Proof.
  intros Hmx Hex. unfold binary_round_aux.
  pose proof (shr_fexp_bound mx ex loc_Exact ltac:(lia)) as [H1 E1].
  destruct (shr_fexp prec emax mx ex loc_Exact) as [r1 e1]. cbn [fst snd] in H1, E1.
  pose proof (round_nearest_even_bound (shr_m r1) (loc_of_shr_record r1)) as Hr.
  set (m1 := round_nearest_even (shr_m r1) (loc_of_shr_record r1)) in *.
  pose proof (shr_fexp_bound m1 e1 loc_Exact ltac:(lia)) as [H2 E2].
  destruct (shr_fexp prec emax m1 e1 loc_Exact) as [r2 e2]. cbn [fst snd] in H2, E2.
  pose proof (Zdigits2_bound mx 106 ltac:(lia) ltac:(lia)) as D1.
  assert (Hm1 : 0 <= m1 < 2 ^ 107).
  { change (2 ^ 107) with (2 * 2 ^ 106). lia. }
  pose proof (Zdigits2_bound m1 107 Hm1 ltac:(lia)) as D2.
  unfold fexp, emin, prec, emax in *.
  assert (He2 : e2 <= 1024 - 53) by lia.
  destruct (shr_m r2) as [|m|m]; [by left| |lia].
  right. exists m, e2. by apply Z.leb_le in He2 as ->.
Qed.

Lemma Qfloor_float_value (m : positive) (e : Z) :
  Qfloor (float_value (S754_finite false m e)) = Z.shiftl (Z.pos m) e.
Proof.
  cbn [float_value]. change (2 # 1)%Q with (inject_Z 2).
  destruct (Z.le_gt_cases 0 e) as [He|He].
  - rewrite <- Zpower_Qpower by done. rewrite <- inject_Z_mult, Qfloor_Z.
    by rewrite Z.shiftl_mul_pow2.
  - rewrite <- (Z.opp_involutive e) at 1. rewrite Qpower_opp.
    rewrite <- Zpower_Qpower by lia.
    change (Qfloor (inject_Z (Z.pos m) / inject_Z (2 ^ (- e))) = Z.shiftl (Z.pos m) e).
    rewrite <- Zdiv_Qdiv, <- Z.shiftr_div_pow2 by lia.
    by rewrite Z.shiftr_opp_r.
Qed.

Lemma unit_interval_finite (s : bool) (m : positive) (e : Z) :
  in_unit_interval (S754_finite s m e) ->
  s = false /\ Z.pos m < 2 ^ 53 /\ e <= -52.
Proof.
  intros (Hvalid & H0 & H1). destruct s; [discriminate H0|]. split; [done|].
  split.
  - apply mantissa_bound.
    cbn in Hvalid. apply andb_prop in Hvalid as [Hc _].
    unfold canonical_mantissa, fexp, emin, prec, emax in Hc.
    apply Z.eqb_eq in Hc. lia.
  - unfold SFleb, SFcompare, float_one in H1.
    destruct (Z.compare_spec e (-52)); [lia|lia|discriminate H1].
Qed.

(** C8 (amended).  For a similarity score in [0,1] the match percentage
    is the floor of the product of the score and 100 as Python computes it
    (on floats the binary64 product, rounded to nearest); the computation
    never raises. *)
Theorem match_pct_floor (int_of_str : string -> outcome Z) (score : json) (product : Q) :
  score_times_100 score product ->
  match_pct int_of_str score = Returned (Qfloor product).
Proof.
  intros [z Hz|s Hs].
  - unfold match_pct. cbn [py_mul_int py_int]. by rewrite Qfloor_Z.
  - unfold match_pct, py_mul_int.
    change (float_of_int 100) with (Returned float_hundred). cbn [py_int].
    destruct s as [b|b| |b m e].
    + by destruct b.
    + destruct Hs as (_ & H0 & H1). by destruct b.
    + by destruct Hs as (_ & H0 & _).
    + apply unit_interval_finite in Hs as (-> & Hm & He).
      unfold float_mul, float_hundred, SFmul. cbn [xorb].
      destruct (round_product_finite false (Z.pos (m * (100 * 2 ^ 46))) (e + -46))
        as [->|(m' & e' & ->)].
      * rewrite Pos2Z.inj_mul. change (2 ^ 106) with (2 ^ 53 * 2 ^ 53).
        change (Z.pos (100 * 2 ^ 46)) with 7036874417766400.
        change (2 ^ 53) with 9007199254740992 in *. nia.
      * lia.
      * reflexivity.
      * cbn [float_trunc]. by rewrite Qfloor_float_value.
Qed.

Lemma float_0_873_in_unit_interval : in_unit_interval float_0_873.
Proof. repeat split. Defined.

Lemma match_pct_floor_witness :
  score_times_100 (JFloat float_0_873) (float_value (float_mul float_0_873 float_hundred)) /\
  match_pct no_int_of_str (JFloat float_0_873) =
  Returned (Qfloor (float_value (float_mul float_0_873 float_hundred))).
Proof.
  split; [exact (score_float _ float_0_873_in_unit_interval)|].
  apply (match_pct_floor no_int_of_str (JFloat float_0_873)).
  exact (score_float _ float_0_873_in_unit_interval).
Defined.

(** A similarity of 0.873 is displayed as 87, and whole scores as 0 and 100. *)
Lemma match_pct_examples (int_of_str : string -> outcome Z) :
  match_pct int_of_str (JFloat float_0_873) = Returned 87 /\
  match_pct int_of_str (JInt 0) = Returned 0 /\
  match_pct int_of_str (JInt 1) = Returned 100.
Proof. repeat split; vm_compute; reflexivity. Qed.

(** The product that is floored is the rounded one: for the binary64
    number nearest to 0.7 it is exactly 70, while 100 times the stored
    value lies just below 70. *)
Lemma match_pct_rounded_product (int_of_str : string -> outcome Z) :
  match_pct int_of_str (JFloat float_0_7) = Returned 70 /\
  Qfloor (float_value float_0_7 * 100) = 69.
Proof. split; vm_compute; reflexivity. Qed.

(** ** The grid and the dialog *)

Lemma show_movie_dialog_undefined : "show_movie_dialog" ∉ module_globals.
Proof. apply (bool_decide_unpack (_ ∉ _)). vm_compute. exact I. Qed.

Lemma clicked_rec_skip (clicked : option nat) (base : nat) (rec : json) (rest : list json) :
  clicked <> Some base ->
  clicked_rec clicked base (rec :: rest) = clicked_rec clicked (S base) rest.
Proof.
  intros Hne. destruct clicked as [idx|]; [|reflexivity]. cbn [clicked_rec].
  assert (idx <> base) by congruence.
  repeat case_bool_decide; try lia; [|reflexivity].
  by replace (idx - base)%nat with (S (idx - S base)) by lia.
Qed.

(** The cards are drawn one after the other; the only change to the
    session is the click, if there is one. *)
Lemma grid_cards_run (int_of_str : string -> outcome Z) (clicked : option nat)
    (items : list json) :
  Forall (card_renders int_of_str) items ->
  forall (base : nat) (s : session_state) nt (c : nat) (tr : list event),
  exists evs,
    grid_cards int_of_str clicked base items (World s nt c tr) =
    (Returned tt,
     World (from_option (with_details s) s (clicked_rec clicked base items)) nt c (tr ++ evs)).
Proof.
  induction 1 as [|rec rest (o & poster & percent & -> & Hposter & Hpct) _ IH];
    intros base s nt c tr.
  - exists []. rewrite app_nil_r.
    destruct clicked as [idx|]; cbn [clicked_rec]; [case_bool_decide|];
      rewrite ?lookup_nil; reflexivity.
  - cbn [grid_cards].
    unfold lift, emit, set_selected_rec, set_show_dialog, get_session, put_session,
      mbind, M_bind, mret, M_ret.
    cbn [py_get]. rewrite Hposter, Hpct. cbn [session net calls trace].
    case_bool_decide as Hclick.
    + cbn [session net calls trace backend_ready chat_history recs source_movie
           selected_rec show_dialog].
      destruct (IH (S base) (with_details s (JObj o)) nt c
                  (tr ++ [EvCard poster (default JNull (o !! "title")) percent]))
        as [evs Hrun].
      unfold with_details at 1 in Hrun. rewrite Hrun. subst clicked.
      eexists. cbn [clicked_rec].
      rewrite (bool_decide_eq_true_2 (base <= base)%nat) by lia.
      rewrite (bool_decide_eq_false_2 (S base <= base)%nat) by lia.
      rewrite Nat.sub_diag. cbn [lookup list_lookup from_option].
      by rewrite <- app_assoc.
    + destruct (IH (S base) s nt c
                  (tr ++ [EvCard poster (default JNull (o !! "title")) percent]))
        as [evs Hrun].
      rewrite Hrun, clicked_rec_skip by done.
      eexists. by rewrite <- app_assoc.
Qed.

(** C9.  When the grid shows recommendations whose cards can be drawn and
    the user clicks the Details button of a non-empty one, the run stores
    the recommendation and the dialog flag in the session and then, at
    the end of the script, raises [NameError] for [show_movie_dialog],
    which the script defines nowhere; the flag stays set. *)
Theorem details_click_raises_NameError (int_of_str : string -> outcome Z)
    (w : world) (rs : list json) (idx : nat) (rec : json) :
  recs (session w) = Some (JArr rs) ->
  source_is_object (session w) ->
  Forall (card_renders int_of_str) rs ->
  rs !! idx = Some rec ->
  py_truthy rec = true ->
  let r := grid_and_dialog int_of_str (Some idx) w in
  ("show_movie_dialog" ∉ module_globals) /\
  result_of r = Raised (NameError "show_movie_dialog") /\
  selected_rec (session (world_after r)) = Some rec /\
  show_dialog (session (world_after r)) = Some true.
Proof.
  intros Hrecs (src & Hsrc) Hcards Hidx Htrue r.
  split; [exact show_movie_dialog_undefined|]. subst r.
  destruct w as [s nt c tr]. cbn [session] in Hrecs, Hsrc.
  unfold grid_and_dialog, recommendations_grid, get_session, lift, emit,
    mbind, M_bind, mret, M_ret.
  cbn [session]. rewrite Hrecs, Hsrc.
  assert (py_truthy (JArr rs) = true) as -> by (destruct rs; [by rewrite lookup_nil in Hidx|done]).
  cbn [py_get py_iter session net calls trace].
  destruct (grid_cards_run int_of_str (Some idx) rs Hcards 0 s nt c
              (tr ++ [EvSubheader (default (JStr "...") (src !! "title"))]))
    as [evs ->].
  cbn [clicked_rec]. rewrite bool_decide_eq_true_2 by lia.
  rewrite Nat.sub_0_r, Hidx. cbn [from_option].
  unfold dialog_logic, load_global, get_session, raise, mbind, M_bind.
  cbn [session with_details show_dialog selected_rec default from_option id andb].
  rewrite Htrue.
  rewrite (bool_decide_eq_false_2 _ show_movie_dialog_undefined).
  by repeat split.
Qed.

Lemma world_with_recs_session :
  session world_with_recs =
  Session (Some true) None (Some (JArr sample_recs)) (Some sample_movie) (Some JNull) None.
Proof. vm_compute. reflexivity. Defined.

Lemma sample_recs_render : Forall (card_renders no_int_of_str) sample_recs.
Proof.
  repeat constructor; eexists _, _, _; (split; [reflexivity|]);
    split; vm_compute; reflexivity.
Defined.

Lemma details_click_raises_NameError_witness :
  let r := grid_and_dialog no_int_of_str (Some 1%nat) world_with_recs in
  recs (session world_with_recs) = Some (JArr sample_recs) /\
  source_is_object (session world_with_recs) /\
  Forall (card_renders no_int_of_str) sample_recs /\
  sample_recs !! 1%nat = Some tenet /\
  py_truthy tenet = true /\
  ("show_movie_dialog" ∉ module_globals) /\
  result_of r = Raised (NameError "show_movie_dialog") /\
  selected_rec (session (world_after r)) = Some tenet /\
  show_dialog (session (world_after r)) = Some true.
Proof.
  assert (Hrecs : recs (session world_with_recs) = Some (JArr sample_recs))
    by (rewrite world_with_recs_session; reflexivity).
  assert (Hsrc : source_is_object (session world_with_recs))
    by (rewrite world_with_recs_session; eexists; reflexivity).
  split; [exact Hrecs|]. split; [exact Hsrc|].
  split; [exact sample_recs_render|]. split; [reflexivity|]. split; [reflexivity|].
  apply (details_click_raises_NameError no_int_of_str world_with_recs sample_recs 1
           tenet Hrecs Hsrc sample_recs_render eq_refl).
  reflexivity.
Defined.

(** * Further properties *)

(** ** Wake-up and search *)

Lemma search_after_failed_wake_up_witness :
  (forall i rq, probe_ok (unreachable i rq) = false) /\
  let w := world_after (initialize_connection (start empty_session unreachable)) in
  backend_ready (session w) = Some false /\
  calls w = 31%nat /\
  result_of (search_movies "Inception" w) = Returned (JArr []) /\
  calls (world_after (search_movies "Inception" w)) = 31%nat.
Proof.
  split; [reflexivity|].
  apply (search_after_failed_wake_up unreachable "Inception"). reflexivity.
Defined.

Lemma total_app (f : event -> Z) (xs ys : list event) :
  total f (xs ++ ys) = total f xs + total f ys.
Proof. unfold total. induction xs as [|x xs IH]; cbn; [done|]. rewrite IH. lia. Qed.

Lemma total_cons (f : event -> Z) (x : event) (xs : list event) :
  total f (x :: xs) = f x + total f xs.
Proof. reflexivity. Qed.

Lemma failed_from_seconds nt (k : nat) : forall c : nat,
  0 <= total sleeping_seconds (failed_from nt c k) <= 2 * Z.of_nat k /\
  total waiting_seconds (failed_from nt c k) <= 7 * Z.of_nat k.
Proof.
  induction k as [|k IH]; intros c; [by cbn|].
  rewrite failed_from_S, !total_app. specialize (IH (S c)).
  destruct (nt c (health_probe 5)); cbn [failed_retry_events]; cbn; lia.
Qed.

(** The wake-up routine returns, leaves the session alone and stays
    within its budget of probes and seconds. *)
Lemma wake_up_backend_run (w : world) :
  exists b n evs,
    (1 <= n <= 31)%nat /\
    total waiting_seconds evs <= 212 /\
    0 <= total sleeping_seconds evs <= 60 /\
    wake_up_backend w =
    (Returned b, World (session w) (net w) (calls w + n) (trace w ++ evs)).
Proof.
  destruct w as [s nt c tr]. cbn [session net calls trace].
  unfold wake_up_backend, try_except, requests_call, mbind, M_bind, mret, M_ret.
  cbn -[wake_up_loop].
  destruct (nt c (health_probe 2)) as [|[[|] bd]]; cbn -[wake_up_loop].
  2: { exists true, 1%nat, [EvRequest (health_probe 2)].
       repeat split; try (cbn; lia). by rewrite Nat.add_1_r. }
  all: destruct (wake_up_loop_run 30 s nt (S c) (tr ++ [EvRequest (health_probe 2)]))
         as [(k & Hk & _ & _ & ->)|[_ ->]].
  1,3: exists true, (2 + k)%nat,
         (EvRequest (health_probe 2) :: failed_from nt (S c) k ++
          [EvRequest (health_probe 5); EvToast "System Online!"]).
  3,4: exists false, 31%nat, (EvRequest (health_probe 2) :: failed_from nt (S c) 30).
  1,2: pose proof (failed_from_seconds nt k (S c)) as Hsec.
  3,4: pose proof (failed_from_seconds nt 30 (S c)) as Hsec.
  all: rewrite <- app_assoc, ?total_cons, ?total_app, ?total_cons;
       change (total _ []) with 0;
       cbn [waiting_seconds sleeping_seconds req_timeout health_probe];
       repeat split; try lia; do 2 f_equal; lia.
Qed.

(** X1.  The wake-up routine makes at most 31 probes; the timeouts of its
    probes and its sleeps add up to at most 212 seconds, of which at most
    60 are sleep. *)
Theorem wake_up_backend_bounded (w : world) :
  let w' := world_after (wake_up_backend w) in
  exists evs,
    trace w' = trace w ++ evs /\
    (calls w' <= calls w + 31)%nat /\
    total waiting_seconds evs <= 212 /\
    total sleeping_seconds evs <= 60.
Proof.
  destruct (wake_up_backend_run w) as (b & n & evs & Hn & Hwait & Hsleep & Hrun).
  cbv zeta. rewrite Hrun. exists evs. unfold world_after. cbn [snd trace calls].
  repeat split; [lia|done|lia].
Qed.

(** X2.  The connection is initialised once: the first call stores a
    verdict in the session, and a call that finds a verdict makes no
    request and changes nothing. *)
Theorem initialize_connection_once (w : world) :
  let w1 := world_after (initialize_connection w) in
  result_of (initialize_connection w) = Returned tt /\
  is_Some (backend_ready (session w1)) /\
  initialize_connection w1 = (Returned tt, w1).
Proof.
  assert (Hset : forall w1 b, backend_ready (session w1) = Some b ->
                 initialize_connection w1 = (Returned tt, w1)).
  { intros w1 b Hb.
    unfold initialize_connection, get_session, mbind, M_bind, mret, M_ret.
    by rewrite Hb. }
  assert (Hinit : exists w1 b, initialize_connection w = (Returned tt, w1) /\
                               backend_ready (session w1) = Some b).
  { destruct (backend_ready (session w)) as [b0|] eqn:Hb.
    - exists w, b0. split; [by apply (Hset w b0)|done].
    - destruct (wake_up_backend_run w) as (b & n & evs & _ & _ & _ & Hrun).
      unfold initialize_connection, set_backend_ready, get_session, put_session,
        mbind, M_bind, mret, M_ret.
      rewrite Hb, Hrun. cbn [session net calls trace].
      eexists _, b. split; reflexivity. }
  destruct Hinit as (w1 & b & Hrun & Hb). cbv zeta.
  unfold result_of, world_after. rewrite Hrun. cbn [fst snd].
  split; [done|]. split; [by rewrite Hb|]. by apply (Hset w1 b).
Qed.

(** X3.  With the backend marked ready, a search never raises and makes
    exactly one request (limit 100, timeout 10 s).  It returns the decoded
    body of an ok response and the empty list in every other case; an
    error is shown when the request raises or the body cannot be decoded,
    and nothing is shown for an error status. *)
Theorem search_movies_ready (query : string) (w : world) :
  backend_ready (session w) = Some true ->
  let rq := Request (BackendSearch query 100) 10 in
  let a := net w (calls w) rq in
  search_movies query w =
  (Returned (search_answer a),
   World (session w) (net w) (S (calls w))
         (trace w ++ EvRequest rq :: search_feedback a)).
Proof.
  destruct w as [[br ch rc sm sr sd] nt c tr]; cbn [session backend_ready net calls trace].
  intros ->. cbv zeta.
  unfold search_movies, session_attr, try_except, requests_call, resp_json, st_error,
    emit, get_session, raise, mbind, M_bind, mret, M_ret.
  cbn [session backend_ready negb net calls trace].
  destruct (nt c _) as [|[[|] [movies|]]]; cbn; rewrite <- ?app_assoc; reflexivity.
Qed.

Lemma search_movies_ready_witness :
  let w := start ready_session backend_finds in
  let rq := Request (BackendSearch "Inception" 100) 10 in
  backend_ready (session w) = Some true /\
  search_movies "Inception" w =
  (Returned (search_answer (net w (calls w) rq)),
   World (session w) (net w) (S (calls w))
         (trace w ++ EvRequest rq :: search_feedback (net w (calls w) rq))).
Proof.
  split; [reflexivity|].
  apply (search_movies_ready "Inception" (start ready_session backend_finds)).
  reflexivity.
Defined.

(** ** The chat page *)

Lemma M_bind_run {A B} (m : M A) (f : A -> M B) (w : world) :
  (m ≫= f) w =
  match m w with
  | (Returned a, w') => f a w'
  | (Raised e, w') => (Raised e, w')
  end.
Proof. reflexivity. Qed.

Lemma show_history_run (h : list message) : forall s nt c tr,
  exists us,
    mapM (fun m => emit (EvMarkdown (content m))) h (World s nt c tr) =
    (Returned us, World s nt c (tr ++ ((fun m => EvMarkdown (content m)) <$> h))).
Proof.
  induction h as [|m h IH]; intros s nt c tr.
  - exists []. cbn. by rewrite app_nil_r.
  - cbn [mapM]. rewrite M_bind_run.
    change (emit (EvMarkdown (content m)) (World s nt c tr))
      with (Returned tt, World s nt c (tr ++ [EvMarkdown (content m)])).
    cbv beta iota. rewrite M_bind_run.
    destruct (IH s nt c (tr ++ [EvMarkdown (content m)])) as [us ->].
    eexists. cbn. by rewrite <- app_assoc.
Qed.

(** The page up to the prompt: the transcript is there afterwards, and
    every message of it has been shown. *)
Lemma chat_page_run (prompt : option string) (w : world) :
  let h0 := default [greeting] (chat_history (session w)) in
  chat_page prompt w =
  match prompt with
  | Some (String a p) => chat_turn (String a p)
  | _ => mret tt
  end (World (with_history (session w) h0) (net w) (calls w)
             (trace w ++ ((fun m => EvMarkdown (content m)) <$> h0))).
Proof.
  destruct w as [[br ch rc sm sr sd] nt c tr]. cbn [session chat_history net calls trace].
  destruct (show_history_run (default [greeting] ch)
              (Session br (Some (default [greeting] ch)) rc sm sr sd) nt c tr) as [us Hrun].
  unfold chat_page, set_chat_history, session_attr, get_session, put_session, with_history,
    mbind, M_bind, mret, M_ret in Hrun |- *.
  destruct ch as [h|];
    cbn [default from_option id session chat_history backend_ready recs source_movie
         selected_rec show_dialog net calls trace] in Hrun |- *;
    rewrite Hrun; reflexivity.
Qed.

(** X4.  A turn that the backend answers appends the prompt and then the
    reply to the transcript, and shows both. *)
Theorem chat_turn_reply (w : world) (h : list message) (prompt : string)
    (o : gmap string json) (text : json) :
  chat_history (session w) = Some h ->
  let rq := Request (BackendChat (clean_msgs (h ++ [user_message prompt]))) 60 in
  net w (calls w) rq = NetResp (Response true (Some (JObj o))) ->
  o !! "content" = Some text ->
  chat_turn prompt w =
  (Returned tt,
   World (with_history (session w)
            (h ++ [user_message prompt; Message "assistant" text]))
         (net w) (S (calls w))
         (trace w ++ [EvMarkdown (JStr prompt); EvRequest rq; EvMarkdown text])).
Proof.
  intros Hh rq Hanswer Htext.
  rewrite (chat_turn_run w h prompt Hh). fold rq. rewrite Hanswer.
  cbn [chat_reply py_getitem]. rewrite Htext. by rewrite <- app_assoc.
Qed.

Lemma chat_turn_reply_witness :
  let w := start (session_with_history [greeting]) backend_chats in
  let rq := Request (BackendChat (clean_msgs ([greeting] ++ [user_message "twist?"]))) 60 in
  let o : gmap string json := <["content" := JStr "Try Memento."]> ∅ in
  chat_history (session w) = Some [greeting] /\
  net w (calls w) rq = NetResp (Response true (Some (JObj o))) /\
  o !! "content" = Some (JStr "Try Memento.") /\
  chat_turn "twist?" w =
  (Returned tt,
   World (with_history (session w)
            ([greeting] ++ [user_message "twist?"; Message "assistant" (JStr "Try Memento.")]))
         (net w) (S (calls w))
         (trace w ++ [EvMarkdown (JStr "twist?"); EvRequest rq;
                      EvMarkdown (JStr "Try Memento.")])).
Proof.
  split; [reflexivity|]. split; [reflexivity|]. split; [reflexivity|].
  apply (chat_turn_reply (start (session_with_history [greeting]) backend_chats)
           [greeting] "twist?" (<["content" := JStr "Try Memento."]> ∅)
           (JStr "Try Memento.")); reflexivity.
Defined.

(** X5.  The chat page never raises, and the transcript only grows: the
    transcript it finds (the greeting on the first visit) is a prefix of
    the one it leaves, at most two messages are added, and when the roles
    were "user" and "assistant" only they still are. *)
Theorem chat_page_appends (prompt : option string) (w : world) :
  let h0 := default [greeting] (chat_history (session w)) in
  let r := chat_page prompt w in
  exists h1,
    result_of r = Returned tt /\
    chat_history (session (world_after r)) = Some h1 /\
    h0 `prefix_of` h1 /\
    (length h1 <= length h0 + 2)%nat /\
    (script_roles h0 -> script_roles h1).
Proof.
  cbv zeta. rewrite chat_page_run.
  set (h0 := default [greeting] (chat_history (session w))).
  destruct prompt as [[|a p]|].
  1,3: exists h0; unfold result_of, world_after, mret, M_ret;
       cbn [fst snd session with_history chat_history];
       split; [done|]; split; [done|]; split; [done|]; split; [lia|done].
  erewrite chat_turn_run by reflexivity.
  unfold result_of, world_after. cbn [fst snd session with_history chat_history].
  destruct (chat_reply _) as [text|ev]; eexists; (split; [reflexivity|]);
    (split; [reflexivity|]).
  - split; [|split].
    + rewrite <- app_assoc. by apply prefix_app_r.
    + rewrite !length_app. cbn. lia.
    + intros Hroles. unfold script_roles.
      rewrite !Forall_app, !Forall_singleton. cbn. auto.
  - split; [|split].
    + by apply prefix_app_r.
    + rewrite !length_app. cbn. lia.
    + intros Hroles. unfold script_roles.
      rewrite !Forall_app, !Forall_singleton. cbn. auto.
Qed.

Lemma filter_Forall_id {A} (P : A -> Prop) `{forall x, Decision (P x)} (l : list A) :
  Forall P l -> filter P l = l.
Proof.
  induction 1 as [|x l Hx _ IH]; [done|].
  rewrite filter_cons_True by done. by rewrite IH.
Qed.

Lemma last_entries_drop {A} (n : nat) (l : list A) :
  last_entries n l = drop (length l - n) l.
Proof. unfold last_entries. by rewrite firstn_rev, rev_involutive. Qed.

(** X6.  On a transcript with the roles "user" and "assistant" only, as
    the script builds it, nothing is filtered: the payload is the last 6
    entries, min(6, length) of them, and agrees with the payload that keeps
    just these two roles. *)
Theorem clean_msgs_script_transcript (t : list message) :
  script_roles t ->
  clean_msgs t = last_entries 6 t /\
  clean_msgs t = claimed_payload t /\
  length (clean_msgs t) = Nat.min 6 (length t).
Proof.
  intros Hroles.
  assert (Hlast : script_roles (last_entries 6 t)).
  { rewrite last_entries_drop. by apply Forall_drop. }
  assert (Hclean : clean_msgs t = last_entries 6 t).
  { rewrite clean_msgs_filter. apply filter_Forall_id.
    eapply Forall_impl; [exact Hlast|]. by intros m [-> | ->]. }
  split; [exact Hclean|]. split.
  - rewrite Hclean. unfold claimed_payload. symmetry. by apply filter_Forall_id.
  - rewrite Hclean, last_entries_drop, length_drop. lia.
Qed.

Lemma clean_msgs_script_transcript_witness :
  let t := [greeting; user_message "twist?"] in
  script_roles t /\
  clean_msgs t = last_entries 6 t /\
  clean_msgs t = claimed_payload t /\
  length (clean_msgs t) = Nat.min 6 (length t).
Proof.
  assert (H : script_roles [greeting; user_message "twist?"]).
  { apply Forall_cons; split; [by right|].
    apply Forall_cons; split; [by left|]. apply Forall_nil_2. }
  split; [exact H|].
  exact (clean_msgs_script_transcript [greeting; user_message "twist?"] H).
Defined.

(** X7.  Without a prompt the chat page makes no request: it creates the
    transcript with the greeting on the first visit, keeps an existing
    one, and shows every message of it in order. *)
Theorem chat_page_idle (w : world) :
  let h0 := default [greeting] (chat_history (session w)) in
  chat_page None w =
  (Returned tt,
   World (with_history (session w) h0) (net w) (calls w)
         (trace w ++ ((fun m => EvMarkdown (content m)) <$> h0))) /\
  (forall h, chat_history (session w) = Some h -> with_history (session w) h0 = session w).
Proof.
  cbv zeta. split; [by rewrite chat_page_run|].
  intros h Hh. rewrite Hh. destruct w as [[br ch rc sm sr sd] nt c tr].
  cbn in Hh. by subst ch.
Qed.

(** ** Recommendations, the grid and the dialog *)

Ltac run_get_similar nt c movie :=
  unfold get_similar_click, set_selected_rec, set_recs, set_source_movie, try_except,
    requests_call, resp_json, st_error, emit, get_session, put_session, lift, raise,
    mbind, M_bind, mret, M_ret;
  cbn -[py_getitem];
  destruct (py_getitem movie "id") as [movie_id|e]; cbn -[py_getitem];
  [ destruct (nt c (Request (BackendRecommendEnriched movie_id 10) 30))
      as [|[[|] [reply|]]] eqn:Hanswer; cbn -[py_getitem];
    [ | destruct (py_getitem reply "recommendations") as [rs|e] eqn:Hrecs;
        cbn -[py_getitem] | | | ]
  | ].

(** X8.  The handler of "Get Similar Recommendations" never raises and
    always clears the selected recommendation.  For a movie without an
    "id" it shows an error and makes no request.  Otherwise it makes one
    request, to the enriched recommendations of that id with n = 10 and a
    30 s timeout: from an ok answer it stores the value of
    "recommendations" together with the movie; in every other case it
    shows an error and leaves both as they were. *)
Theorem get_similar_click_outcome (movie : json) (w : world) :
  get_similar_click movie w =
  match py_getitem movie "id" with
  | Raised e =>
      (Returned tt,
       World (with_cleared_selection (session w)) (net w) (calls w)
             (trace w ++ [EvErrorExn "Connection Error: " e]))
  | Returned movie_id =>
      let rq := similar_request movie_id in
      match similar_reply (net w (calls w) rq) with
      | inl recommendations =>
          (Returned tt,
           World (with_recommendations (session w) recommendations movie)
                 (net w) (S (calls w)) (trace w ++ [EvRequest rq]))
      | inr err =>
          (Returned tt,
           World (with_cleared_selection (session w)) (net w) (S (calls w))
                 (trace w ++ [EvRequest rq; err]))
      end
  end /\
  (forall a err, similar_reply a = inr err -> is_error err = true).
Proof.
  split.
  - destruct w as [[br ch rc sm sr sd] nt c tr]. cbn [session net calls trace].
    unfold similar_request, similar_reply, with_cleared_selection, with_recommendations.
    run_get_similar nt c movie; rewrite <- ?app_assoc; reflexivity.
  - intros [|[[|] [reply|]]] err; cbn [similar_reply];
      try destruct (py_getitem reply "recommendations"); intros [= <-]; reflexivity.
Qed.

(** X9.  Once the dialog flag is set and a recommendation is selected,
    the dialog logic raises [NameError] and changes nothing: the flag is
    still set, so every later run that reaches the end of the script
    raises again. *)
Theorem dialog_logic_repeats (w : world) :
  show_dialog (session w) = Some true ->
  py_truthy (default JNull (selected_rec (session w))) = true ->
  dialog_logic w = (Raised (NameError "show_movie_dialog"), w) /\
  dialog_logic (world_after (dialog_logic w)) = dialog_logic w.
Proof.
  intros Hflag Hrec.
  assert (Hrun : dialog_logic w = (Raised (NameError "show_movie_dialog"), w)).
  { unfold dialog_logic, load_global, get_session, raise, mbind, M_bind.
    rewrite Hflag, Hrec. cbn [default from_option id andb].
    by rewrite (bool_decide_eq_false_2 _ show_movie_dialog_undefined). }
  split; [exact Hrun|]. by rewrite Hrun.
Qed.

Lemma world_after_details_session :
  session world_after_details =
  Session (Some true) None (Some (JArr sample_recs)) (Some sample_movie)
          (Some tenet) (Some true).
Proof. vm_compute. reflexivity. Defined.

Lemma dialog_logic_repeats_witness :
  let w := world_after_details in
  show_dialog (session w) = Some true /\
  py_truthy (default JNull (selected_rec (session w))) = true /\
  dialog_logic w = (Raised (NameError "show_movie_dialog"), w) /\
  dialog_logic (world_after (dialog_logic w)) = dialog_logic w.
Proof.
  assert (H1 : show_dialog (session world_after_details) = Some true)
    by (rewrite world_after_details_session; reflexivity).
  assert (H2 : py_truthy (default JNull (selected_rec (session world_after_details))) = true)
    by (rewrite world_after_details_session; reflexivity).
  split; [exact H1|]. split; [exact H2|].
  exact (dialog_logic_repeats world_after_details H1 H2).
Defined.

(** X10.  A click on "Get Similar Recommendations" ends that: whatever
    the backend answers, the dialog logic that follows returns normally
    and changes nothing. *)
Theorem get_similar_click_clears_dialog (movie : json) (w : world) :
  let w1 := world_after (get_similar_click movie w) in
  result_of (get_similar_click movie w) = Returned tt /\
  dialog_logic w1 = (Returned tt, w1).
Proof.
  assert (Hquiet : forall w1, selected_rec (session w1) = Some JNull ->
                   dialog_logic w1 = (Returned tt, w1)).
  { intros w1 Hsel. unfold dialog_logic, get_session, mbind, M_bind, mret, M_ret.
    rewrite Hsel. cbn. by rewrite andb_false_r. }
  destruct w as [[br ch rc sm sr sd] nt c tr]. cbv zeta.
  unfold result_of, world_after.
  run_get_similar nt c movie.
  all: split; [reflexivity|]; by apply Hquiet.
Qed.

Lemma grid_cards_events (int_of_str : string -> outcome Z)
    (items : list json) (cards : list event) :
  Forall2 (card_of int_of_str) items cards ->
  forall (base : nat) (s : session_state) nt (c : nat) (tr : list event),
    grid_cards int_of_str None base items (World s nt c tr) =
    (Returned tt, World s nt c (tr ++ cards)).
Proof.
  induction 1 as [|rec card items cards (o & poster & percent & -> & Hposter & Hpct & ->) _ IH];
    intros base s nt c tr.
  - cbn. by rewrite app_nil_r.
  - cbn [grid_cards].
    unfold lift, emit, mbind, M_bind, mret, M_ret.
    cbn [py_get]. rewrite Hposter, Hpct. cbn [session net calls trace].
    rewrite bool_decide_eq_false_2 by done.
    rewrite IH. by rewrite <- app_assoc.
Qed.

(** X11.  Without a click the grid only draws: under one heading, one
    card per recommendation, in the order of the list, each with its
    resolved poster and its match percentage.  It makes no request and
    leaves the session as it is; an empty list draws nothing. *)
Theorem recommendations_grid_cards (int_of_str : string -> outcome Z) (w : world)
    (rs : list json) (cards : list event) :
  recs (session w) = Some (JArr rs) ->
  source_is_object (session w) ->
  Forall2 (card_of int_of_str) rs cards ->
  exists title,
    recommendations_grid int_of_str None w =
    (Returned tt,
     World (session w) (net w) (calls w)
           (trace w ++ match rs with [] => [] | _ => EvSubheader title :: cards end)).
Proof.
  intros Hrecs (src & Hsrc) Hcards. destruct w as [s nt c tr].
  cbn [session net calls trace] in *.
  exists (default (JStr "...") (src !! "title")).
  unfold recommendations_grid, get_session, lift, emit, mbind, M_bind, mret, M_ret.
  cbn [session]. rewrite Hrecs, Hsrc.
  destruct rs as [|rec rs]; [by rewrite app_nil_r|].
  cbn [py_truthy py_get py_iter session net calls trace].
  rewrite (grid_cards_events int_of_str _ _ Hcards). by rewrite <- app_assoc.
Qed.

Lemma sample_cards :
  Forall2 (card_of no_int_of_str) sample_recs
    [EvCard (image_base +:+ "/interstellar.jpg") (JStr "Interstellar") 87;
     EvCard placeholder (JStr "Tenet") 100].
Proof.
  repeat constructor; eexists _, _, _; (split; [reflexivity|]);
    (split; [vm_compute; reflexivity|]); split; vm_compute; reflexivity.
Defined.

Lemma recommendations_grid_cards_witness :
  let w := world_with_recs in
  let cards := [EvCard (image_base +:+ "/interstellar.jpg") (JStr "Interstellar") 87;
                EvCard placeholder (JStr "Tenet") 100] in
  recs (session w) = Some (JArr sample_recs) /\
  source_is_object (session w) /\
  Forall2 (card_of no_int_of_str) sample_recs cards /\
  exists title,
    recommendations_grid no_int_of_str None w =
    (Returned tt,
     World (session w) (net w) (calls w) (trace w ++ EvSubheader title :: cards)).
Proof.
  assert (Hrecs : recs (session world_with_recs) = Some (JArr sample_recs))
    by (rewrite world_with_recs_session; reflexivity).
  assert (Hsrc : source_is_object (session world_with_recs))
    by (rewrite world_with_recs_session; eexists; reflexivity).
  split; [exact Hrecs|]. split; [exact Hsrc|]. split; [exact sample_cards|].
  exact (recommendations_grid_cards no_int_of_str world_with_recs sample_recs _
           Hrecs Hsrc sample_cards).
Defined.

(** ** What escapes the credits accessor *)

Lemma py_get_raises (d : json) (k : string) (dflt : json) (e : exn) :
  py_get d k dflt = Raised e -> e = AttributeError.
Proof. destruct d; cbn; congruence. Qed.

Lemma py_getitem_raises (d : json) (k : string) (e : exn) :
  py_getitem d k = Raised e -> e = KeyError \/ e = TypeError.
Proof. destruct d; cbn; try destruct (_ !! _); intros [= <-]; auto. Qed.


Lemma py_iter_raises (v : json) (e : exn) : py_iter v = Raised e -> e = TypeError.
Proof. destruct v; cbn; congruence. Qed.






Lemma first_director_skip (pre rest : list json) :
  Forall other_job pre -> first_director (pre ++ rest) = first_director rest.
Proof.
  induction 1 as [|c pre (o & -> & Hjob) _ IH]; [done|].
  cbn [app first_director py_get]. by rewrite Hjob.
Qed.

(** The credits accessor on an answer whose cast can be read and whose
    crew reaches a first director entry [d] after entries of other jobs. *)
Lemma fetch_credits_first_director (movie_id : json) (w : world) b
    (data : gmap string json) cs names pre d rest :
  net w (calls w) (Request (TmdbCredits movie_id) 3) =
    NetResp (Response b (Some (JObj data))) ->
  default (JArr []) (data !! "cast") = JArr cs ->
  Forall2 cast_entry (take 3 cs) names ->
  default (JArr []) (data !! "crew") = JArr (pre ++ JObj d :: rest) ->
  Forall other_job pre ->
  d !! "job" = Some (JStr "Director") ->
  result_of (fetch_credits movie_id w) =
  match d !! "name" with
  | Some n => Returned (Credits (join ", " names) n)
  | None => Returned (Credits "N/A" (JStr "N/A"))
  end.
Proof.
  intros Hanswer Hcast Hnames Hcrew Hpre Hjob.
  destruct w as [s nt c tr]. cbn [session net calls trace] in *.
  unfold fetch_credits, try_except, requests_call, resp_json, lift, raise, result_of,
    mbind, M_bind, mret, M_ret.
  cbn [session net calls trace]. rewrite Hanswer.
  cbn [body py_get]. rewrite Hcast, Hcrew. cbn [py_slice_to py_iter].
  rewrite (comprehension_names _ _ Hnames), (first_director_skip _ _ Hpre).
  cbn [first_director py_get]. rewrite Hjob. cbn [default from_option id py_eq_str].
  change (String.eqb "Director" "Director") with true. cbn [py_getitem].
  destruct (d !! "name") as [n|]; [|reflexivity].
  by rewrite py_join_strings.
Qed.

(** X13.  When the first crew entry whose job is "Director" has no name,
    the whole result is "N/A", the cast included, although the cast could
    be read and a later director has a name. *)
Theorem fetch_credits_nameless_director (movie_id : json) (w : world) b
    (data : gmap string json) cs names pre d rest :
  net w (calls w) (Request (TmdbCredits movie_id) 3) =
    NetResp (Response b (Some (JObj data))) ->
  default (JArr []) (data !! "cast") = JArr cs ->
  Forall2 cast_entry (take 3 cs) names ->
  default (JArr []) (data !! "crew") = JArr (pre ++ JObj d :: rest) ->
  Forall other_job pre ->
  d !! "job" = Some (JStr "Director") ->
  d !! "name" = None ->
  result_of (fetch_credits movie_id w) = Returned (Credits "N/A" (JStr "N/A")).
Proof.
  intros Hanswer Hcast Hnames Hcrew Hpre Hjob Hname.
  rewrite (fetch_credits_first_director movie_id w b data cs names pre d rest) by done.
  by rewrite Hname.
Qed.

(** X14.  The crew is read up to its first director only: whatever
    follows that entry, even values that are not objects, has no effect
    on the result. *)
Theorem fetch_credits_ignores_later_crew (movie_id : json) (w : world) b
    (data : gmap string json) cs names pre d rest n :
  net w (calls w) (Request (TmdbCredits movie_id) 3) =
    NetResp (Response b (Some (JObj data))) ->
  default (JArr []) (data !! "cast") = JArr cs ->
  Forall2 cast_entry (take 3 cs) names ->
  default (JArr []) (data !! "crew") = JArr (pre ++ JObj d :: rest) ->
  Forall other_job pre ->
  d !! "job" = Some (JStr "Director") ->
  d !! "name" = Some n ->
  result_of (fetch_credits movie_id w) = Returned (Credits (join ", " names) n).
Proof.
  intros Hanswer Hcast Hnames Hcrew Hpre Hjob Hname.
  rewrite (fetch_credits_first_director movie_id w b data cs names pre d rest) by done.
  by rewrite Hname.
Qed.

(** ** Watch providers: no fallback for a region without subscriptions *)

(** X15.  When the primary region has an entry without a "flatrate" list,
    the result is the empty list even if the secondary region has
    subscriptions: the fallback looks at the presence of the region, not
    of the list. *)
Theorem fetch_watch_providers_no_second_look (movie_id : json) (w : world) b
    (data results entry : gmap string json) :
  let rq := Request (TmdbWatchProviders movie_id) 3 in
  net w (calls w) rq = NetResp (Response b (Some (JObj data))) ->
  data !! "results" = Some (JObj results) ->
  results !! "IN" = Some (JObj entry) ->
  entry !! "flatrate" = None ->
  fetch_watch_providers movie_id w =
  (Returned (JArr []),
   World (session w) (net w) (S (calls w)) (trace w ++ [EvRequest rq])).
Proof.
  intros rq Hanswer Hres Hin Hflat. destruct w as [s nt c tr].
  cbn [session net calls trace] in *.
  unfold fetch_watch_providers, try_except, requests_call, resp_json, lift, raise,
    mbind, M_bind, mret, M_ret.
  cbn [session net calls trace]. fold rq. rewrite Hanswer.
  cbn [body py_get]. rewrite Hres. cbn [default from_option id py_get].
  rewrite Hin. cbn [from_option id py_get]. by rewrite Hflat.
Qed.

Lemma fetch_credits_nameless_director_witness :
  let w := start empty_session (answers_with nameless_director_body) in
  let pre := [crew_person "Ed" "Producer"] in
  let d : gmap string json := <["job" := JStr "Director"]> ∅ in
  let rest := [crew_person "Gus" "Director"] in
  net w (calls w) (Request (TmdbCredits (JInt 550)) 3) =
    NetResp (Response true (Some (JObj nameless_director_body))) /\
  default (JArr []) (nameless_director_body !! "cast") = JArr [person "Ann"] /\
  Forall2 cast_entry (take 3 [person "Ann"]) ["Ann"] /\
  default (JArr []) (nameless_director_body !! "crew") = JArr (pre ++ JObj d :: rest) /\
  Forall other_job pre /\
  d !! "job" = Some (JStr "Director") /\
  d !! "name" = None /\
  result_of (fetch_credits (JInt 550) w) = Returned (Credits "N/A" (JStr "N/A")).
Proof.
  assert (Hcast : Forall2 cast_entry (take 3 [person "Ann"]) ["Ann"])
    by (repeat constructor; eexists; split; reflexivity).
  assert (Hpre : Forall other_job [crew_person "Ed" "Producer"])
    by (repeat constructor; eexists; split; reflexivity).
  split; [reflexivity|]. split; [reflexivity|]. split; [exact Hcast|].
  split; [reflexivity|]. split; [exact Hpre|]. split; [reflexivity|].
  split; [reflexivity|].
  exact (fetch_credits_nameless_director (JInt 550)
           (start empty_session (answers_with nameless_director_body)) true
           nameless_director_body [person "Ann"] ["Ann"]
           [crew_person "Ed" "Producer"] (<["job" := JStr "Director"]> ∅)
           [crew_person "Gus" "Director"]
           eq_refl eq_refl Hcast eq_refl Hpre eq_refl eq_refl).
Defined.

Lemma fetch_credits_ignores_later_crew_witness :
  let w := start empty_session (answers_with junk_after_director_body) in
  let pre := [crew_person "Ed" "Producer"] in
  let d : gmap string json := <["name" := JStr "Flo"]> (<["job" := JStr "Director"]> ∅) in
  let rest := [JInt 7; JNull] in
  net w (calls w) (Request (TmdbCredits (JInt 550)) 3) =
    NetResp (Response true (Some (JObj junk_after_director_body))) /\
  default (JArr []) (junk_after_director_body !! "cast") = JArr [person "Ann"] /\
  Forall2 cast_entry (take 3 [person "Ann"]) ["Ann"] /\
  default (JArr []) (junk_after_director_body !! "crew") = JArr (pre ++ JObj d :: rest) /\
  Forall other_job pre /\
  d !! "job" = Some (JStr "Director") /\
  d !! "name" = Some (JStr "Flo") /\
  result_of (fetch_credits (JInt 550) w) = Returned (Credits (join ", " ["Ann"]) (JStr "Flo")).
Proof.
  assert (Hcast : Forall2 cast_entry (take 3 [person "Ann"]) ["Ann"])
    by (repeat constructor; eexists; split; reflexivity).
  assert (Hpre : Forall other_job [crew_person "Ed" "Producer"])
    by (repeat constructor; eexists; split; reflexivity).
  split; [reflexivity|]. split; [reflexivity|]. split; [exact Hcast|].
  split; [reflexivity|]. split; [exact Hpre|]. split; [reflexivity|].
  split; [reflexivity|].
  exact (fetch_credits_ignores_later_crew (JInt 550)
           (start empty_session (answers_with junk_after_director_body)) true
           junk_after_director_body [person "Ann"] ["Ann"]
           [crew_person "Ed" "Producer"]
           (<["name" := JStr "Flo"]> (<["job" := JStr "Director"]> ∅))
           [JInt 7; JNull] (JStr "Flo")
           eq_refl eq_refl Hcast eq_refl Hpre eq_refl eq_refl).
Defined.

Lemma fetch_watch_providers_no_second_look_witness :
  let w := start empty_session (answers_with primary_without_flatrate_body) in
  let rq := Request (TmdbWatchProviders (JInt 550)) 3 in
  let results : gmap string json :=
    <["IN" := JObj (<["rent" := JArr []]> ∅)]>
    (<["US" := JObj (<["flatrate" := sample_flatrate]> ∅)]> ∅) in
  let entry : gmap string json := <["rent" := JArr []]> ∅ in
  net w (calls w) rq = NetResp (Response true (Some (JObj primary_without_flatrate_body))) /\
  primary_without_flatrate_body !! "results" = Some (JObj results) /\
  results !! "IN" = Some (JObj entry) /\
  results !! "US" = Some (JObj (<["flatrate" := sample_flatrate]> ∅)) /\
  entry !! "flatrate" = None /\
  fetch_watch_providers (JInt 550) w =
  (Returned (JArr []),
   World (session w) (net w) (S (calls w)) (trace w ++ [EvRequest rq])).
Proof.
  split; [reflexivity|]. split; [reflexivity|]. split; [reflexivity|].
  split; [reflexivity|]. split; [reflexivity|].
  exact (fetch_watch_providers_no_second_look (JInt 550)
           (start empty_session (answers_with primary_without_flatrate_body)) true
           primary_without_flatrate_body
           (<["IN" := JObj (<["rent" := JArr []]> ∅)]>
            (<["US" := JObj (<["flatrate" := sample_flatrate]> ∅)]> ∅))
           (<["rent" := JArr []]> ∅)
           eq_refl eq_refl eq_refl eq_refl).
Defined.

(** ** Trailer, trending list and details *)

Lemma first_trailer_find (vs : list json) (videos : list video) :
  Forall2 video_entry vs videos ->
  first_trailer vs =
  Returned ((fun v => JStr (video_key v)) <$>
            List.find (fun v => String.eqb (video_type v) "Trailer") videos).
Proof.
  induction 1 as [|c v vs videos (o & -> & Hty & Hkey) _ IH]; [reflexivity|].
  cbn [first_trailer py_get List.find]. rewrite Hty, Hkey.
  cbn [default from_option id py_eq_str].
  by destruct (String.eqb (video_type v) "Trailer").
Qed.

(** X16.  From an answer whose videos can be read, the trailer accessor
    returns the key of the first video whose type is "Trailer", whatever
    videos come before it; without a trailer the key of the first video;
    and [None] when there are no videos or no "results". *)
Theorem fetch_trailer_key (a : net_result) (data : gmap string json)
    (vs : list json) (videos : list video) :
  answer_json a = Returned (JObj data) ->
  default (JArr []) (data !! "results") = JArr vs ->
  Forall2 video_entry vs videos ->
  fetch_trailer a = Returned (trailer_key videos).
Proof.
  intros Hdata Hres Hvideos.
  unfold fetch_trailer, trailer_key, mbind, outcome_bind. rewrite Hdata.
  cbn [py_get]. rewrite Hres. cbn [py_iter].
  rewrite (first_trailer_find _ _ Hvideos).
  destruct (List.find _ videos) as [v|]; [reflexivity|]. cbn [fmap option_fmap option_map].
  destruct Hvideos as [|c v vs videos (o & -> & Hty & Hkey) _].
  - destruct (data !! "results") as [r|]; [|reflexivity].
    cbn in Hres. subst r. reflexivity.
  - destruct (data !! "results") as [r|] eqn:Hr; [|discriminate Hres].
    cbn in Hres. subst r. cbn [default from_option id py_truthy py_getitem].
    rewrite Hr. unfold py_index.
    change (0 <? 0) with false. cbv iota.
    change ((JObj o :: vs) !! Z.to_nat 0) with (Some (JObj o)).
    change (0 <? 0) with false. cbv iota.
    cbn [py_get]. by rewrite Hkey.
Qed.

Lemma fetch_trailer_key_witness :
  let a := NetResp (Response true (Some (JObj sample_videos_body))) in
  let vs := [ JObj (<["type" := JStr "Teaser"]> (<["key" := JStr "t1"]> ∅));
              JObj (<["type" := JStr "Trailer"]> (<["key" := JStr "k2"]> ∅));
              JObj (<["type" := JStr "Trailer"]> (<["key" := JStr "k3"]> ∅)) ] in
  let videos := [Video "Teaser" "t1"; Video "Trailer" "k2"; Video "Trailer" "k3"] in
  answer_json a = Returned (JObj sample_videos_body) /\
  default (JArr []) (sample_videos_body !! "results") = JArr vs /\
  Forall2 video_entry vs videos /\
  fetch_trailer a = Returned (JStr "k2").
Proof.
  assert (H : Forall2 video_entry
    [ JObj (<["type" := JStr "Teaser"]> (<["key" := JStr "t1"]> ∅));
      JObj (<["type" := JStr "Trailer"]> (<["key" := JStr "k2"]> ∅));
      JObj (<["type" := JStr "Trailer"]> (<["key" := JStr "k3"]> ∅)) ]
    [Video "Teaser" "t1"; Video "Trailer" "k2"; Video "Trailer" "k3"])
    by (repeat constructor; eexists; (split; [reflexivity|]); split; reflexivity).
  split; [reflexivity|]. split; [reflexivity|]. split; [exact H|].
  exact (fetch_trailer_key (NetResp (Response true (Some (JObj sample_videos_body))))
           sample_videos_body _ _ eq_refl eq_refl H).
Defined.

Lemma py_index_raises (v : json) (i : Z) (e : exn) :
  py_index v i = Raised e -> e = IndexError \/ e = KeyError \/ e = TypeError.
Proof.
  unfold py_index. destruct v; try (intros [= <-]; tauto);
    repeat case_match; intros [= <-]; tauto.
Qed.

Lemma first_trailer_raises (vs : list json) (e : exn) :
  first_trailer vs = Raised e -> e = AttributeError.
Proof.
  induction vs as [|v vs IH]; cbn [first_trailer]; [discriminate|].
  destruct (py_get v "type" JNull) as [ty|e'] eqn:Hty.
  - destruct (py_eq_str ty "Trailer"); [|exact IH].
    destruct (py_get v "key" JNull) as [key|e''] eqn:Hkey; [discriminate|].
    intros [= <-]. by apply py_get_raises in Hkey.
  - intros [= <-]. by apply py_get_raises in Hty.
Qed.

(** X17.  The trailer accessor answers [None] when the request raises or
    the body cannot be decoded, and the only exceptions that can leave it
    are [AttributeError] and [TypeError], from values of the wrong type in
    the answer. *)
Theorem fetch_trailer_escapes (a : net_result) :
  (fetch_raises a -> fetch_trailer a = Returned JNull) /\
  (forall e, fetch_trailer a = Raised e -> e = AttributeError \/ e = TypeError).
Proof.
  split; [by intros []|].
  assert (Hend : forall (e0 e : exn),
    e0 = AttributeError \/ e0 = TypeError \/ e0 = KeyError \/ e0 = IndexError \/
    e0 = RequestException \/ e0 = JSONDecodeError ->
    outcome_except (Raised e0) [CRequestException; CKeyError; CIndexError]
      (fun _ => Returned JNull) = Raised e ->
    e = AttributeError \/ e = TypeError).
  { intros e0 e [->|[->|[->|[->|[->| ->]]]]]; cbn; intros [=]; auto. }
  intros e. unfold fetch_trailer, mbind, outcome_bind.
  destruct (answer_json a) as [data|e0] eqn:H0.
  2: { apply Hend. destruct a as [|[b [j|]]]; cbn in H0; inversion H0; tauto. }
  destruct (py_get data "results" (JArr [])) as [results|e0] eqn:H1;
    [|apply py_get_raises in H1; apply Hend; tauto].
  destruct (py_iter results) as [videos|e0] eqn:H2;
    [|apply py_iter_raises in H2; apply Hend; tauto].
  destruct (first_trailer videos) as [[key|]|e0] eqn:H3;
    [discriminate| |apply first_trailer_raises in H3; apply Hend; tauto].
  destruct (py_get data "results" JNull) as [again|e0] eqn:H4;
    [|apply py_get_raises in H4; apply Hend; tauto].
  destruct (py_truthy again); [|discriminate].
  destruct (py_getitem data "results") as [all|e0] eqn:H5;
    [|apply py_getitem_raises in H5; apply Hend; tauto].
  destruct (py_index all 0) as [first|e0] eqn:H6;
    [|apply py_index_raises in H6; apply Hend; tauto].
  destruct (py_get first "key" JNull) as [key|e0] eqn:H7;
    [discriminate|apply py_get_raises in H7; apply Hend; tauto].
Qed.

(** X18.  The trending accessor never raises: it returns the "results" of
    an answer that is an object, and the empty list in every other case,
    an answer of the wrong type included. *)
Theorem fetch_trending_movies_total (a : net_result) :
  exists v,
    fetch_trending_movies a = Returned v /\
    (forall data, answer_json a = Returned (JObj data) ->
                  v = default (JArr []) (data !! "results")) /\
    ((forall data, answer_json a <> Returned (JObj data)) -> v = JArr []).
Proof.
  unfold fetch_trending_movies, mbind, outcome_bind.
  destruct (answer_json a) as [[| | | | | |data]|e]; cbn; eexists;
    (split; [reflexivity|]); split; try congruence; try done.
  intros H. by destruct (H data).
Qed.

(** X19.  The details accessor never raises, and a failed fetch leaves
    the billboard blank instead of breaking it: the empty object it
    returns when the request raises or the body cannot be decoded, like any
    answer without "genres" and "runtime", gives empty genres and an empty
    runtime. *)
Theorem fetch_tmdb_details_blank (py_str : json -> string) (a : net_result) :
  exists details,
    fetch_tmdb_details a = Returned details /\
    (fetch_raises a -> details = JObj ∅) /\
    (forall data : gmap string json,
       details = JObj data -> data !! "genres" = None -> data !! "runtime" = None ->
       hero_genres details = Returned "" /\ hero_runtime py_str details = Returned "").
Proof.
  assert (Hblank : forall data : gmap string json,
    data !! "genres" = None -> data !! "runtime" = None ->
    hero_genres (JObj data) = Returned "" /\ hero_runtime py_str (JObj data) = Returned "").
  { intros data Hg Hr. unfold hero_genres, hero_runtime, mbind, outcome_bind.
    cbn [py_get]. by rewrite Hg, Hr. }
  destruct a as [|[b [j|]]]; cbn; eexists; (split; [reflexivity|]); split;
    try (intros H; inversion H; done); try done;
    intros data ->; apply Hblank.
Qed.

(** ** Labels of the search results *)

(** X20.  The label of a search result with a string title is the title
    followed by the first four characters (code points) of the release
    date in parentheses; without a release date, or with an empty one, it
    is the title alone, and without a title "Unknown" stands in.  No
    other field of the result enters the label. *)
Theorem format_option_label (py_str : json -> string) (m : gmap string json)
    (title : string) (date : option string) :
  default (JStr "Unknown") (m !! "title") = JStr title ->
  m !! "release_date" = JStr <$> date ->
  format_option py_str (JObj m) =
  Returned (JStr match date with
                 | Some (String c d) =>
                     title +:+ " (" +:+ utf8_take 4 (String c d) +:+ ")"
                 | _ => title
                 end).
Proof.
  intros Htitle Hdate.
  unfold format_option, mbind, outcome_bind. cbn [py_get]. rewrite Htitle, Hdate.
  destruct date as [[|c d]|]; try reflexivity.
  cbn [fmap option_fmap option_map default from_option id py_truthy py_text_slice_to
       utf8_take].
  by destruct (utf8_continuation c), (utf8_take _ d).
Qed.

Lemma format_option_label_witness :
  let m : gmap string json :=
    <["id" := JInt 27205]> (<["title" := JStr "Inception"]>
      (<["release_date" := JStr "2010-07-15"]> ∅)) in
  default (JStr "Unknown") (m !! "title") = JStr "Inception" /\
  m !! "release_date" = JStr <$> Some "2010-07-15" /\
  format_option (fun _ => "") (JObj m) = Returned (JStr "Inception (2010)").
Proof.
  split; [reflexivity|]. split; [reflexivity|].
  exact (format_option_label (fun _ => "")
           (<["id" := JInt 27205]> (<["title" := JStr "Inception"]>
              (<["release_date" := JStr "2010-07-15"]> ∅)))
           "Inception" (Some "2010-07-15") eq_refl eq_refl).
Defined.

(** ** Match percentage of a negative score *)

Lemma Qceiling_float_value (m : positive) (e : Z) :
  Qceiling (float_value (S754_finite true m e)) = - Z.shiftl (Z.pos m) e.
Proof.
  unfold Qceiling. f_equal. rewrite <- Qfloor_float_value.
  apply Qfloor_comp. cbn [float_value].
  change (inject_Z (Z.neg m)) with (- inject_Z (Z.pos m))%Q. ring.
Qed.

Lemma negative_interval_finite (s : bool) (m : positive) (e : Z) :
  in_negative_unit_interval (S754_finite s m e) ->
  s = true /\ Z.pos m < 2 ^ 53 /\ e <= -52.
Proof.
  intros (Hvalid & H1 & H0). destruct s; [|discriminate H0]. split; [done|].
  split.
  - apply mantissa_bound.
    cbn in Hvalid. apply andb_prop in Hvalid as [Hc _].
    unfold canonical_mantissa, fexp, emin, prec, emax in Hc.
    apply Z.eqb_eq in Hc. lia.
  - unfold SFleb, SFcompare, float_minus_one in H1.
    destruct (Z.compare_spec (-52) e); [lia|discriminate H1|lia].
Qed.

(** X22.  For a score in [-1,0) the match percentage is the product with
    100 rounded toward zero, that is its ceiling and not its floor; the
    computation never raises. *)
Theorem match_pct_toward_zero (int_of_str : string -> outcome Z) (s : spec_float) :
  in_negative_unit_interval s ->
  match_pct int_of_str (JFloat s) =
  Returned (Qceiling (float_value (float_mul s float_hundred))).
Proof.
  intros Hs. unfold match_pct, py_mul_int.
  change (float_of_int 100) with (Returned float_hundred). cbn [py_int].
  destruct s as [b|b| |b m e].
  - destruct Hs as (_ & _ & H0). by destruct b.
  - destruct Hs as (_ & H1 & H0). by destruct b.
  - by destruct Hs as (_ & H1 & _).
  - apply negative_interval_finite in Hs as (-> & Hm & He).
    unfold float_mul, float_hundred, SFmul. cbn [xorb].
    destruct (round_product_finite true (Z.pos (m * (100 * 2 ^ 46))) (e + -46))
      as [->|(m' & e' & ->)].
    + rewrite Pos2Z.inj_mul. change (2 ^ 106) with (2 ^ 53 * 2 ^ 53).
      change (Z.pos (100 * 2 ^ 46)) with 7036874417766400.
      change (2 ^ 53) with 9007199254740992 in *. nia.
    + lia.
    + reflexivity.
    + cbn [float_trunc]. by rewrite Qceiling_float_value.
Qed.

Lemma float_minus_0_005_in_interval : in_negative_unit_interval float_minus_0_005.
Proof. repeat split. Defined.

Lemma match_pct_toward_zero_witness :
  in_negative_unit_interval float_minus_0_005 /\
  match_pct no_int_of_str (JFloat float_minus_0_005) =
  Returned (Qceiling (float_value (float_mul float_minus_0_005 float_hundred))) /\
  Qceiling (float_value (float_mul float_minus_0_005 float_hundred)) = 0 /\
  Qfloor (float_value (float_mul float_minus_0_005 float_hundred)) = -1.
Proof.
  split; [exact float_minus_0_005_in_interval|].
  split; [|split; vm_compute; reflexivity].
  exact (match_pct_toward_zero no_int_of_str float_minus_0_005
           float_minus_0_005_in_interval).
Defined.

(** ** The verdict stored at load time *)

Lemma wake_up_loop_verdict (n : nat) (s : session_state) nt (c : nat) (tr : list event) :
  result_of (wake_up_loop n (World s nt c tr)) =
  Returned (existsb probe_ok ((fun i => retry_at nt c i) <$> seq 0 n)).
Proof.
  destruct (wake_up_loop_run n s nt c tr) as [(k & Hk & Hfail & Hok & ->)|[Hfail ->]];
    unfold result_of; cbn [fst]; f_equal; symmetry.
  - apply existsb_exists. exists (retry_at nt c k). split; [|done].
    apply in_map_iff. exists k. split; [done|]. apply in_seq. lia.
  - apply not_true_is_false. intros (a & Ha & Hok)%existsb_exists.
    apply in_map_iff in Ha as (i & <- & Hi%in_seq).
    rewrite Hfail in Hok by lia. discriminate.
Qed.

(** X23.  On the first run the readiness flag becomes true exactly when
    one of the 31 probes the wake-up can make, the fast one or one of the
    30 retries, is answered with an ok response. *)
Theorem initialize_connection_verdict (w : world) :
  backend_ready (session w) = None ->
  backend_ready (session (world_after (initialize_connection w))) =
  Some (existsb probe_ok (fast_answer w :: (retry_answer w <$> seq 0 30))).
Proof.
  intros Hnone. destruct w as [s nt c tr]. cbn [session] in Hnone.
  unfold initialize_connection, set_backend_ready, wake_up_backend, try_except,
    requests_call, get_session, put_session, world_after, mbind, M_bind, mret, M_ret.
  cbn -[wake_up_loop existsb seq]. rewrite Hnone.
  pose proof (wake_up_loop_verdict 30 s nt (S c) (tr ++ [EvRequest (health_probe 2)]))
    as Hloop.
  unfold fast_answer, retry_answer. cbn [net calls existsb]. rewrite Nat.add_1_r.
  change (fun i => retry_at nt (S c) i) with (retry_at nt (S c)) in Hloop.
  unfold result_of in Hloop.
  destruct (nt c (health_probe 2)) as [|[[|] bd]]; cbn -[wake_up_loop existsb seq];
    [|reflexivity|];
    destruct (wake_up_loop 30 _) as [[b|e] w']; cbn [fst] in Hloop;
    inversion Hloop; reflexivity.
Qed.

Lemma initialize_connection_verdict_witness :
  let w := start empty_session unreachable in
  backend_ready (session w) = None /\
  backend_ready (session (world_after (initialize_connection w))) =
  Some (existsb probe_ok (fast_answer w :: (retry_answer w <$> seq 0 30))).
Proof.
  split; [reflexivity|].
  exact (initialize_connection_verdict (start empty_session unreachable) eq_refl).
Defined.

(** ** The payload of a chat turn, in the words of the claim *)

Lemma filter_Forall_iff {A} (P Q : A -> Prop)
    `{forall x, Decision (P x)} `{forall x, Decision (Q x)} (l : list A) :
  Forall (fun x => P x <-> Q x) l -> filter P l = filter Q l.
Proof.
  induction 1 as [|x l Hx _ IH]; [done|].
  destruct (decide (P x)) as [HP|HP].
  - rewrite !filter_cons_True by tauto. by rewrite IH.
  - rewrite !filter_cons_False by tauto. exact IH.
Qed.

Lemma claimed_payload_clean_msgs (t : list message) :
  transcript_roles t -> clean_msgs t = claimed_payload t.
Proof.
  intros Hroles. rewrite clean_msgs_filter. unfold claimed_payload.
  apply filter_Forall_iff. rewrite last_entries_drop.
  eapply Forall_impl; [by apply Forall_drop|].
  intros m [Hm|[Hm|Hm]]; rewrite Hm; split; auto; try done.
  by intros [|].
Qed.

(** C2.  On a chat turn exactly one request is sent, to the chat endpoint.
    For a transcript whose roles are among "user", "assistant" and
    "system", as every transcript of the script is, its payload consists
    of the last 6 entries of the transcript (the prompt included) with
    every message whose role is neither "user" nor "assistant" removed, in
    their original order. *)
Theorem chat_turn_payload_claimed (w : world) (h : list message) (prompt : string) :
  chat_history (session w) = Some h ->
  transcript_roles h ->
  let t := h ++ [user_message prompt] in
  List.filter is_request
    (drop (length (trace w)) (trace (world_after (chat_turn prompt w)))) =
    [EvRequest (Request (BackendChat (claimed_payload t)) 60)] /\
  claimed_payload t =
    filter (fun m => role m = "user" \/ role m = "assistant") (last_entries 6 t) /\
  sublist (claimed_payload t) t /\
  (length (claimed_payload t) <= 6)%nat.
Proof.
  intros Hh Hroles t.
  assert (Ht : transcript_roles t).
  { apply Forall_app. split; [exact Hroles|]. apply Forall_singleton. by left. }
  destruct (chat_turn_payload w h prompt Hh) as (payload & Hsent & Hpayload & Hsub).
  fold t in Hpayload, Hsub.
  assert (Heq : payload = claimed_payload t).
  { rewrite Hpayload, <- clean_msgs_filter. by apply claimed_payload_clean_msgs. }
  rewrite Heq in Hsent, Hsub.
  split; [exact Hsent|]. split; [reflexivity|]. split; [exact Hsub|].
  unfold claimed_payload. etrans; [apply length_filter|].
  rewrite last_entries_drop, length_drop. lia.
Qed.

Lemma sample_transcript_roles : transcript_roles sample_transcript.
Proof.
  unfold transcript_roles, sample_transcript.
  repeat (apply Forall_cons; split; [cbn; tauto|]). apply Forall_nil_2.
Defined.

Lemma chat_turn_payload_claimed_witness :
  let w := start (session_with_history sample_transcript) unreachable in
  let t := sample_transcript ++ [user_message "next"] in
  chat_history (session w) = Some sample_transcript /\
  transcript_roles sample_transcript /\
  List.filter is_request
    (drop (length (trace w)) (trace (world_after (chat_turn "next" w)))) =
    [EvRequest (Request (BackendChat (claimed_payload t)) 60)] /\
  claimed_payload t =
    filter (fun m => role m = "user" \/ role m = "assistant") (last_entries 6 t) /\
  sublist (claimed_payload t) t /\
  (length (claimed_payload t) <= 6)%nat.
Proof.
  split; [reflexivity|]. split; [exact sample_transcript_roles|].
  exact (chat_turn_payload_claimed
           (start (session_with_history sample_transcript) unreachable)
           sample_transcript "next" eq_refl sample_transcript_roles).
Defined.

(** The payload for the sample transcript: the system message among the
    last 6 entries is gone, the other five are sent in order. *)
Lemma sample_payload :
  claimed_payload (sample_transcript ++ [user_message "next"]) =
  [ Message "user" (JStr "u5"); Message "assistant" (JStr "a6");
    Message "user" (JStr "u7"); Message "assistant" (JStr "a8");
    Message "user" (JStr "next") ].
Proof. vm_compute. reflexivity. Qed.

(** ** Watch providers and the status of the answer *)


(** ** The match percentage and the exact product *)

Lemma float_0_7_in_unit_interval : in_unit_interval float_0_7.
Proof. repeat split. Qed.

(** C8 as stated fails: the percentage is not the floor of the score
    times 100.  The binary64 number nearest to 0.7 lies in [0,1] and 100
    times its value is below 70, with floor 69, but the product the code
    computes is rounded to 70 and 70 is displayed. *)
Lemma match_pct_not_floor_of_exact_product :
  in_unit_interval float_0_7 /\
  Qfloor (float_value float_0_7 * 100) = 69 /\
  match_pct no_int_of_str (JFloat float_0_7) = Returned 70 /\
  match_pct no_int_of_str (JFloat float_0_7) <>
    Returned (Qfloor (float_value float_0_7 * 100)).
Proof.
  split; [exact float_0_7_in_unit_interval|].
  split; [vm_compute; reflexivity|].
  split; [vm_compute; reflexivity|].
  vm_compute. discriminate.
Qed.

(** ** Labels and characters *)

(** The year of a label is cut by characters: a date written with the
    full-width digits of "２０１０" keeps all four of them, twelve bytes. *)
Lemma format_option_wide_digits :
  format_option (fun _ => "")
    (JObj (<["title" := JStr "Inception"]> (<["release_date" := JStr "２０１０年"]> ∅))) =
  Returned (JStr "Inception (２０１０)").
Proof. vm_compute. reflexivity. Qed.
